(** * toggleai: the in-memory fuzzy search engine

    A shallow embedding of [src/util.py] and [src/engines.py] and the
    properties of the query evaluator stated in the specification.

    Conventions of the embedding.
    - A Python [str] is a [string]; a character is a code point below 256
      (Latin-1), with the whitespace, case and punctuation classes Python
      gives those code points.
    - A [dict] used as a map is a [gmap], a [set] of corpus positions is a
      [gset nat]; iterating over a set is [elements], whose order is fixed
      but left unspecified, as in Python.
    - Methods of the engine run in a state-and-exception monad over the
      attributes of [self] ([_corpus], [_index]) and a log of the reads
      performed on them.
    - [time.time_ns()] is an input: the two readings taken by
      [evaluate_query] are arguments of the model.
    - A Python [float] is a binary64 value of [SpecFloat]. *)

From Stdlib Require Import ZArith Ascii String List Permutation Sorted.
From Stdlib Require Import Floats.SpecFloat.
From stdpp Require Import base gmap strings list pretty.

Set Warnings "-register-all,-clear-no-such-hyp".

Local Open Scope string_scope.
Local Open Scope list_scope.

(** ** The Python runtime: the [str] methods the program calls *)

Module Py.

Definition code (c : ascii) : nat := nat_of_ascii c.

Definition between (lo hi : nat) (c : ascii) : bool :=
  (lo <=? code c)%nat && (code c <=? hi)%nat.

(** [str.isspace] on one character: TAB..CR, FS..US, SPACE, NEL, NBSP. *)
Definition isspace (c : ascii) : bool :=
  between 9 13 c || between 28 32 c || (code c =? 133)%nat || (code c =? 160)%nat.

(** Characters that [str.lower] changes: A-Z and the Latin-1 capitals
    (all of 0xC0..0xDE but the multiplication sign 0xD7). *)
Definition isupper (c : ascii) : bool :=
  between 65 90 c || (between 192 222 c && negb (code c =? 215)%nat).

Definition lower_char (c : ascii) : ascii :=
  if isupper c then ascii_of_nat (code c + 32) else c.

(** [s.lower()] *)
Fixpoint lower (s : string) : string :=
  match s with
  | EmptyString => EmptyString
  | String c r => String (lower_char c) (lower r)
  end.

Definition of_codes (l : list nat) : string :=
  string_of_list_ascii (map ascii_of_nat l).

(** [string.punctuation]: the 32 printable ASCII characters that are
    neither alphanumeric nor the space. *)
Definition punctuation : string :=
  of_codes (seq 33 15 ++ seq 58 7 ++ seq 91 6 ++ seq 123 4).

(** [c in s] for a one-character [c] *)
Fixpoint char_in (c : ascii) (s : string) : bool :=
  match s with
  | EmptyString => false
  | String d r => Ascii.eqb c d || char_in c r
  end.

(** [s.translate(str.maketrans('', '', dels))]: delete the characters of [dels] *)
Fixpoint translate_delete (dels s : string) : string :=
  match s with
  | EmptyString => EmptyString
  | String c r =>
      if char_in c dels then translate_delete dels r
      else String c (translate_delete dels r)
  end.

(** [s.lstrip()], [s.rstrip()], [s.strip()] *)
Fixpoint lstrip (s : string) : string :=
  match s with
  | EmptyString => EmptyString
  | String c r => if isspace c then lstrip r else s
  end.

Fixpoint rstrip (s : string) : string :=
  match s with
  | EmptyString => EmptyString
  | String c r =>
      match rstrip r with
      | EmptyString => if isspace c then EmptyString else String c EmptyString
      | r' => String c r'
      end
  end.

Definition strip (s : string) : string := rstrip (lstrip s).

(** [s.split()]: the maximal runs of non-whitespace characters, in order.
    [cur] is the run being read. *)
Definition flush (cur : string) : list string :=
  match cur with
  | EmptyString => []
  | _ => [cur]
  end.

Fixpoint split_from (cur s : string) : list string :=
  match s with
  | EmptyString => flush cur
  | String c r =>
      if isspace c then flush cur ++ split_from EmptyString r
      else split_from (cur ++ String c EmptyString) r
  end.

Definition split (s : string) : list string := split_from EmptyString s.

(** [sep.join(l)] *)
Fixpoint join (sep : string) (l : list string) : string :=
  match l with
  | [] => EmptyString
  | [x] => x
  | x :: r => x ++ sep ++ join sep r
  end.

(** [t in s] for strings: [t] occurs in [s] as a contiguous substring *)
Fixpoint str_in (t s : string) : bool :=
  String.prefix t s ||
  match s with
  | EmptyString => false
  | String _ r => str_in t r
  end.

(** Every character of [s] satisfies [p]. *)
Fixpoint all_chars (p : ascii -> bool) (s : string) : bool :=
  match s with
  | EmptyString => true
  | String c r => p c && all_chars p r
  end.

(** [s[:n]] for [n >= 0] *)
Definition slice_to (n : nat) (s : string) : string := String.substring 0 n s.

(** [range(a, b)] *)
Definition range (a b : nat) : list nat := seq a (b - a).

(** [repr] of an identifier-like [str] and of a tuple of such strings *)
Definition repr_str (s : string) : string := "'" ++ s ++ "'".

Definition repr_tuple (l : list string) : string :=
  match l with
  | [x] => "(" ++ repr_str x ++ ",)"
  | _ => "(" ++ join ", " (map repr_str l) ++ ")"
  end.

(** [float(z) * 1e-6]: the integer is rounded to the nearest binary64,
    then multiplied by the binary64 nearest to 1e-6. [time.time_ns()]
    readings are 64-bit, so the conversion cannot overflow. *)
Definition prec : Z := 53.
Definition emax : Z := 1024.

Definition float_of_int (z : Z) : spec_float :=
  binary_normalize prec emax z 0 false.

Definition float_1e_6 : spec_float := S754_finite false 4722366482869645 (-72).

Definition fmul (x y : spec_float) : spec_float := SFmul prec emax x y.

End Py.

(** ** Exceptions and the two monads

    Code that reads no attribute of [self] runs in [outcome]; the methods
    that read [self._index] or [self._corpus] run in [M]. *)

Inductive exn : Type :=
| InvalidQueryError (msg : string)
| AttributeError (msg : string)
| IndexError (msg : string)
| TypeError
| ValueError
| StopIteration.

Inductive outcome (A : Type) : Type :=
| Return (a : A)
| Raise (e : exn).

Arguments Return {A} a.
Arguments Raise {A} e.

Definition obind {A B} (o : outcome A) (k : A -> outcome B) : outcome B :=
  match o with
  | Return a => k a
  | Raise e => Raise e
  end.

Fixpoint omapM {A B} (f : A -> outcome B) (l : list A) : outcome (list B) :=
  match l with
  | [] => Return []
  | x :: r => obind (f x) (fun y => obind (omapM f r) (fun ys => Return (y :: ys)))
  end.

(** ** util.py *)

Module util.

(** The keywords of [keyword.kwlist]. *)
Definition kwlist : list string :=
  ["False"; "None"; "True"; "and"; "as"; "assert"; "async"; "await";
   "break"; "class"; "continue"; "def"; "del"; "elif"; "else"; "except";
   "finally"; "for"; "from"; "global"; "if"; "import"; "in"; "is";
   "lambda"; "nonlocal"; "not"; "or"; "pass"; "raise"; "return"; "try";
   "while"; "with"; "yield"].

Definition in_list (s : string) (l : list string) : bool :=
  existsb (String.eqb s) l.

Definition isdigit (c : ascii) : bool := Py.between 48 57 c.
Definition isalpha_ascii (c : ascii) : bool := Py.between 97 122 c || Py.between 65 90 c.
Definition underscore : ascii := "_"%char.

(** [re.sub('[\s\t\n]+', '_', s)]: every maximal run of whitespace
    becomes one underscore. [in_run] tells that the previous character
    was whitespace. *)
Fixpoint sub_whitespace (in_run : bool) (s : string) : string :=
  match s with
  | EmptyString => EmptyString
  | String c r =>
      if Py.isspace c then
        if in_run then sub_whitespace true r
        else String underscore (sub_whitespace true r)
      else String c (sub_whitespace false r)
  end.

(** [re.sub('[^0-9a-zA-Z_]', '', s)] *)
Definition valid_char (c : ascii) : bool :=
  isdigit c || isalpha_ascii c || Ascii.eqb c underscore.

Fixpoint remove_invalid (s : string) : string :=
  match s with
  | EmptyString => EmptyString
  | String c r =>
      if valid_char c then String c (remove_invalid r) else remove_invalid r
  end.

(** [re.sub('^[^a-zA-Z_]+', '', s)] *)
Fixpoint remove_leading (s : string) : string :=
  match s with
  | EmptyString => EmptyString
  | String c r =>
      if isalpha_ascii c || Ascii.eqb c underscore then s else remove_leading r
  end.

(** [while s in keyword.kwlist: s += '_1'], with one unit of fuel for
    each iteration. *)
Fixpoint avoid_keywords (fuel : nat) (s : string) : string :=
  match fuel with
  | O => s
  | S fuel' => if in_list s kwlist then avoid_keywords fuel' (s ++ "_1") else s
  end.

Definition make_python_identifier (str : string) : string :=
  let s := Py.lower str in
  let s := Py.strip s in
  let s := sub_whitespace false s in
  let s := remove_invalid s in
  let s := remove_leading s in
  avoid_keywords (S (length kwlist)) s.

(** *** Documents: instances of the [namedtuple] class made by the loader *)

Record Document : Type := mkDocument {
  _fields : list string;      (* the field names of the class *)
  tuple_items : list string   (* the values, as the tuple holds them *)
}.

(** What [getattr] can return: a [str], or an object of another type
    (known by the name of its type). *)
Inductive pyobj : Type :=
| PyStr (s : string)
| PyObj (tyname : string).

(** The attributes an instance of a [namedtuple] class has besides its
    fields (CPython 3.12), with the type of the object each one gives. *)
Definition inherited_attrs (fields : list string) : list (string * pyobj) :=
  [("__doc__", PyStr ("Document(" ++ Py.join ", " fields ++ ")"));
   ("__module__", PyStr "engines");
   ("__class__", PyObj "type");
   ("__match_args__", PyObj "tuple");
   ("__slots__", PyObj "tuple");
   ("_fields", PyObj "tuple");
   ("_field_defaults", PyObj "dict");
   ("_asdict", PyObj "method");
   ("_replace", PyObj "method");
   ("_make", PyObj "method");
   ("__repr__", PyObj "method");
   ("__getnewargs__", PyObj "method");
   ("__new__", PyObj "function");
   ("count", PyObj "builtin_function_or_method");
   ("index", PyObj "builtin_function_or_method");
   ("__class_getitem__", PyObj "builtin_function_or_method");
   ("__dir__", PyObj "builtin_function_or_method");
   ("__format__", PyObj "builtin_function_or_method");
   ("__getstate__", PyObj "builtin_function_or_method");
   ("__init_subclass__", PyObj "builtin_function_or_method");
   ("__reduce__", PyObj "builtin_function_or_method");
   ("__reduce_ex__", PyObj "builtin_function_or_method");
   ("__sizeof__", PyObj "builtin_function_or_method");
   ("__subclasshook__", PyObj "builtin_function_or_method");
   ("__add__", PyObj "method-wrapper");
   ("__contains__", PyObj "method-wrapper");
   ("__delattr__", PyObj "method-wrapper");
   ("__eq__", PyObj "method-wrapper");
   ("__ge__", PyObj "method-wrapper");
   ("__getattribute__", PyObj "method-wrapper");
   ("__getitem__", PyObj "method-wrapper");
   ("__gt__", PyObj "method-wrapper");
   ("__hash__", PyObj "method-wrapper");
   ("__init__", PyObj "method-wrapper");
   ("__iter__", PyObj "method-wrapper");
   ("__le__", PyObj "method-wrapper");
   ("__len__", PyObj "method-wrapper");
   ("__lt__", PyObj "method-wrapper");
   ("__mul__", PyObj "method-wrapper");
   ("__ne__", PyObj "method-wrapper");
   ("__rmul__", PyObj "method-wrapper");
   ("__setattr__", PyObj "method-wrapper");
   ("__str__", PyObj "method-wrapper")].

Fixpoint assoc {V : Type} (name : string) (l : list (string * V)) : option V :=
  match l with
  | [] => None
  | (k, v) :: r => if String.eqb name k then Some v else assoc name r
  end.

(** [getattr(doc, name)]: a field gives its value; otherwise an
    inherited attribute; otherwise [None], where Python raises
    [AttributeError]. *)
Definition getattr (doc : Document) (name : string) : option pyobj :=
  match assoc name (combine (_fields doc) (tuple_items doc)) with
  | Some v => Some (PyStr v)
  | None => assoc name (inherited_attrs (_fields doc))
  end.

(** *** class Results *)

Record Results : Type := mkResults {
  _query : string;
  _data : list Document;
  _execution_time : spec_float
}.

(** [Results.__init__]: [execution_time] arrives in nanoseconds. *)
Definition Results_init (query : string) (results : list Document)
    (execution_time : Z) : Results :=
  {| _query := query;
     _data := results;
     _execution_time := Py.fmul (Py.float_of_int execution_time) Py.float_1e_6 |}.

Definition query (r : Results) : string := _query r.
Definition data (r : Results) : list Document := _data r.
Definition execution_time (r : Results) : spec_float := _execution_time r.

(** The Python values that [to_json] builds. A [dict] keeps its keys in
    insertion order. *)
Inductive pyval : Type :=
| VStr (s : string)
| VFloat (f : spec_float)
| VList (l : list pyval)
| VDict (kv : list (string * pyval)).

(** [d[k] = v] *)
Fixpoint dict_set (k : string) (v : pyval) (d : list (string * pyval))
    : list (string * pyval) :=
  match d with
  | [] => [(k, v)]
  | (k', v') :: r =>
      if String.eqb k k' then (k', v) :: r else (k', v') :: dict_set k v r
  end.

(** [dict(pairs)] *)
Definition dict (pairs : list (string * pyval)) : list (string * pyval) :=
  fold_left (fun d kv => dict_set (fst kv) (snd kv) d) pairs [].

Definition document_dict (document : Document) : pyval :=
  VDict (dict (combine (_fields document) (map VStr (tuple_items document)))).

Definition to_json (self : Results) : pyval :=
  VDict
    [("meta", VDict [("query", VStr (query self));
                     ("execution_time_ms", VFloat (execution_time self))]);
     ("data", VList (map document_dict (data self)))].

(** [len(results)] *)
Definition Results_len (self : Results) : nat := length (data self).

End util.

(** ** engines.py *)

Module engines.
Import util.

(** *** The state of an engine and the monad of its methods *)

Record self_t : Type := mkSelf {
  _corpus : list Document;
  _index : gmap string (gset nat)
}.

(** The reads a method performs on the attributes of [self]. *)
Inductive access : Type :=
| IndexGet (term : string)       (* self._index.get(term, None) *)
| CorpusGetItem (idx : nat).     (* self._corpus[idx] *)

Record state : Type := mkState {
  self : self_t;
  reads : list access
}.

Definition M (A : Type) : Type := state -> outcome A * state.

Definition ret {A} (a : A) : M A := fun st => (Return a, st).

Definition raise {A} (e : exn) : M A := fun st => (Raise e, st).

Definition bind {A B} (m : M A) (k : A -> M B) : M B :=
  fun st =>
    match m st with
    | (Return a, st') => k a st'
    | (Raise e, st') => (Raise e, st')
    end.

Definition lift {A} (o : outcome A) : M A := fun st => (o, st).

Declare Scope py_scope.
Delimit Scope py_scope with py.
Notation "x <- m ;; k" := (bind m (fun x => k))
  (at level 100, m at next level, right associativity) : py_scope.
Notation "m ;;; k" := (bind m (fun _ => k))
  (at level 100, k at level 200, right associativity) : py_scope.
Local Open Scope py_scope.

Fixpoint mapM {A B} (f : A -> M B) (l : list A) : M (list B) :=
  match l with
  | [] => ret []
  | x :: r => y <- f x ;; ys <- mapM f r ;; ret (y :: ys)
  end.

Fixpoint foldM {A B} (f : B -> A -> M B) (l : list A) (acc : B) : M B :=
  match l with
  | [] => ret acc
  | x :: r => acc' <- f acc x ;; foldM f r acc'
  end.

Definition log (a : access) (st : state) : state :=
  {| self := self st; reads := reads st ++ [a] |}.

(** [self._index.get(term, None)] *)
Definition index_get (term : string) : M (option (gset nat)) :=
  fun st => (Return (_index (self st) !! term), log (IndexGet term) st).

(** [self._corpus[idx]] *)
Definition corpus_getitem (idx : nat) : M Document :=
  fun st =>
    (match _corpus (self st) !! idx with
     | Some d => Return d
     | None => Raise (IndexError "list index out of range")
     end, log (CorpusGetItem idx) st).

(** *** IndexSearchEngine *)

(** [_clean_string] *)
Definition _clean_string (term : string) : string :=
  Py.translate_delete Py.punctuation (Py.lower term).

(** Truth value of the result of [dict.get]: [None] and the empty set
    are false. *)
Definition truthy (m : option (gset nat)) : option (gset nat) :=
  match m with
  | Some s => if decide (s = ∅) then None else Some s
  | None => None
  end.

(** [set.intersection(s, *others)] *)
Definition set_intersection (s : gset nat) (others : list (gset nat)) : gset nat :=
  fold_left (fun acc t => acc ∩ t) others s.

(** [_get_results] *)
Definition _get_results (query : string) : M (list Document) :=
  idx_matchs_all <-
    foldM (fun idx_matchs_all term =>
             m <- index_get term ;;
             match truthy m with
             | Some s => ret (idx_matchs_all ++ [s])
             | None => ret idx_matchs_all
             end)
          (Py.split query) [] ;;
  match idx_matchs_all with
  | [] => ret []
  | s :: others =>
      let idxs := set_intersection s others in
      mapM corpus_getitem (elements idxs)
  end.

(** *** FuzzySearchEngine *)

(** [_fuzzify] *)
Definition _fuzzify (word : string) : list string :=
  let words := map (fun n => Py.slice_to n word) (Py.range 3 (String.length word + 1)) in
  words ++ [word].

(** [_validate_query], with its parameter [n] *)
Definition _validate_query (query : string) (n : Z) : outcome unit :=
  if (Z.of_nat (String.length (Py.strip query)) <? n)%Z
  then Raise (InvalidQueryError ("Query must be at least " ++ pretty n ++ " characters"))
  else Return tt.

(** [sorted(l, key=...)] on the list of the elements with their keys:
    a stable sort, ascending. Two elements with the same key are never
    exchanged, so every stable sort computes this list. *)
Fixpoint insert_sorted {A} (x : nat * A) (l : list (nat * A)) : list (nat * A) :=
  match l with
  | [] => [x]
  | y :: r => if (fst x <=? fst y)%nat then x :: l else y :: insert_sorted x r
  end.

Fixpoint sorted {A} (l : list (nat * A)) : list (nat * A) :=
  match l with
  | [] => []
  | x :: r => insert_sorted x (sorted r)
  end.

(** [[i for i, token in enumerate(tokens) if term in token]], counting
    from [i] *)
Fixpoint positions_from (i : nat) (term : string) (tokens : list string) : list nat :=
  match tokens with
  | [] => []
  | token :: r =>
      if Py.str_in term token then i :: positions_from (S i) term r
      else positions_from (S i) term r
  end.

(** [l[0]] *)
Definition item0 {A} (l : list A) : outcome A :=
  match l with
  | x :: _ => Return x
  | [] => Raise (IndexError "list index out of range")
  end.

(** [text.lower()...] on what [getattr] returned: only a [str] has
    the method. *)
Definition clean_attr (o : pyobj) : outcome string :=
  match o with
  | PyStr text => Return (_clean_string text)
  | PyObj tyname =>
      Raise (AttributeError ("'" ++ tyname ++ "' object has no attribute 'lower'"))
  end.

(** The loop of [_sort_results] that splits the results. *)
Fixpoint partition_results (term sort_by : string) (results to_sort the_rest : list Document)
    : outcome (list Document * list Document) :=
  match results with
  | [] => Return (to_sort, the_rest)
  | doc :: r =>
      match getattr doc sort_by with
      | None =>
          Raise (AttributeError ("Could not sort by '" ++ sort_by ++
                                 "'. Please use one of " ++ Py.repr_tuple (_fields doc)))
      | Some text =>
          obind (clean_attr text) (fun text_clean =>
            if Py.str_in term text_clean
            then partition_results term sort_by r (to_sort ++ [doc]) the_rest
            else partition_results term sort_by r to_sort (the_rest ++ [doc]))
      end
  end.

(** The key function [sorter] local to [_sort_results]. *)
Definition sorter (term sort_by : string) (doc : Document) : outcome nat :=
  match getattr doc sort_by with
  | None =>
      Raise (AttributeError ("'Document' object has no attribute '" ++ sort_by ++ "'"))
  | Some o =>
      obind (clean_attr o) (fun haystack =>
        item0 (positions_from 0 term (Py.split haystack)))
  end.

(** [_sort_results] *)
Definition _sort_results (query : string) (results : list Document) (sort_by : string)
    : outcome (list Document) :=
  obind (item0 (Py.split query)) (fun term =>
    let sort_by := make_python_identifier sort_by in
    obind (partition_results term sort_by results [] []) (fun '(to_sort, the_rest) =>
      obind (omapM (sorter term sort_by) to_sort) (fun keys =>
        let sorted_docs := map snd (sorted (combine keys to_sort)) in
        Return (sorted_docs ++ the_rest)))).

(** Truth value of the argument [sort_by] ([None] or a [str]). *)
Definition sort_by_given (sort_by : option string) : option string :=
  match sort_by with
  | Some EmptyString => None
  | Some s => Some s
  | None => None
  end.

(** [evaluate_query]; [t1] and [t2] are the readings of [time.time_ns()]
    at entry and before the construction of the result. *)
Definition evaluate_query (query : string) (sort_by : option string) (t1 t2 : Z)
    : M Results :=
  lift (_validate_query query 3) ;;;
  let query_clean := _clean_string query in
  results <- _get_results query_clean ;;
  results <-
    match sort_by_given sort_by with
    | Some sort_by => lift (_sort_results query_clean results sort_by)
    | None => ret results
    end ;;
  ret (Results_init query results (t2 - t1)).

(** *** Construction of an engine *)

(** [namedtuple('Document', field_names)]: the class is known by its
    field names; the checks are those of [collections.namedtuple]. *)
Definition id_start (c : ascii) : bool :=
  isalpha_ascii c || Ascii.eqb c underscore ||
  (Py.code c =? 170)%nat || (Py.code c =? 181)%nat || (Py.code c =? 186)%nat ||
  Py.between 192 214 c || Py.between 216 246 c || Py.between 248 255 c.

Definition id_continue (c : ascii) : bool :=
  id_start c || isdigit c || (Py.code c =? 183)%nat.

Definition isidentifier (s : string) : bool :=
  match s with
  | EmptyString => false
  | String c r => id_start c && Py.all_chars id_continue r
  end.

Definition startswith_underscore (s : string) : bool :=
  match s with
  | String c _ => Ascii.eqb c underscore
  | EmptyString => false
  end.

Fixpoint check_fields (seen field_names : list string) : bool :=
  match field_names with
  | [] => true
  | name :: r =>
      negb (startswith_underscore name) && negb (in_list name seen) &&
      check_fields (name :: seen) r
  end.

Definition namedtuple (field_names : list string) : outcome (list string) :=
  if forallb (fun name => isidentifier name && negb (in_list name kwlist)) field_names
     && check_fields [] field_names
  then Return field_names
  else Raise ValueError.

(** The call of the class [Document] on the cells of one row. *)
Definition Document_new (cls : list string) (document : list string) : outcome Document :=
  if (length document =? length cls)%nat
  then Return {| _fields := cls; tuple_items := document |}
  else Raise TypeError.

(** [_load_corpus]; [rows] is what [csv.reader] yields for the file. *)
Definition _load_corpus (rows : list (list string)) (skiprows : option nat)
    : outcome (list Document) :=
  let n := match skiprows with Some n => n | None => 0 end in
  if (length rows <? n)%nat then Raise StopIteration
  else
    match drop n rows with
    | [] => Raise StopIteration
    | fields :: rest =>
        obind (namedtuple (map make_python_identifier fields)) (fun cls =>
          omapM (Document_new cls) rest)
    end.

(** [index.setdefault(x, set()).add(idx)] *)
Definition index_add (x : string) (idx : nat) (index : gmap string (gset nat))
    : gmap string (gset nat) :=
  <[x := default ∅ (index !! x) ∪ {[idx]}]> index.

(** [enumerate(l)], counting from [i] *)
Fixpoint enumerate_from {A} (i : nat) (l : list A) : list (nat * A) :=
  match l with
  | [] => []
  | x :: r => (i, x) :: enumerate_from (S i) r
  end.

(** [_build_index] *)
Definition _build_index (corpus : list Document) : gmap string (gset nat) :=
  fold_left
    (fun index '(idx, document) =>
       let text := Py.join " " (tuple_items document) in
       let text_cleaned := _clean_string text in
       fold_left
         (fun index token =>
            fold_left (fun index x => index_add x idx index) (_fuzzify token) index)
         (Py.split text_cleaned) index)
    (enumerate_from 0 corpus) ∅.

(** [__init__] *)
Definition FuzzySearchEngine (rows : list (list string)) (skiprows : option nat)
    : outcome self_t :=
  obind (_load_corpus rows skiprows) (fun corpus =>
    Return {| _corpus := corpus; _index := _build_index corpus |}).

(** A call of a method on an engine, starting with an empty log. *)
Definition call {A} (m : M A) (e : self_t) : outcome A * state :=
  m {| self := e; reads := [] |}.

End engines.

Import util engines.

(** * Facts about the runtime functions *)

Section StringFacts.

Definition nospace (c : ascii) : bool := negb (Py.isspace c).

(** A character that [_clean_string] leaves alone. *)
Definition clean_char (c : ascii) : bool :=
  negb (Py.isupper c) && negb (Py.char_in c Py.punctuation).

Ltac each_char c := destruct c as [[] [] [] [] [] [] [] []]; vm_compute; try reflexivity; try discriminate.

Lemma lower_char_not_upper c : Py.isupper (Py.lower_char c) = false.
Proof. each_char c. Qed.

Lemma lower_char_clean c : clean_char c = true -> Py.lower_char c = c.
Proof.
  unfold clean_char, Py.lower_char. intros H.
  apply andb_true_iff in H as [H _]. apply negb_true_iff in H. now rewrite H.
Qed.

Lemma space_is_clean c : Py.isspace c = true -> clean_char c = true.
Proof. each_char c. Qed.

Lemma app_nil (b : string) : EmptyString +:+ b = b.
Proof. reflexivity. Qed.

Lemma app_cons x (a b : string) : String x a +:+ b = String x (a +:+ b).
Proof. reflexivity. Qed.

Lemma app_String_assoc (a : string) c (b : string) :
  (a +:+ String c EmptyString) +:+ b = a +:+ String c b.
Proof.
  induction a as [|x a IH]; [reflexivity |].
  rewrite !app_cons. now rewrite IH.
Qed.

Lemma app_empty_r (a : string) : a +:+ EmptyString = a.
Proof.
  induction a as [|x a IH]; [reflexivity |].
  rewrite app_cons. now rewrite IH.
Qed.

Lemma app_str_assoc (a b c : string) : (a +:+ b) +:+ c = a +:+ (b +:+ c).
Proof.
  induction a as [|x a IH]; [reflexivity |].
  rewrite !app_cons. now rewrite IH.
Qed.

Lemma all_chars_app p (a b : string) :
  Py.all_chars p (a +:+ b) = Py.all_chars p a && Py.all_chars p b.
Proof.
  induction a as [|x a IH]; [reflexivity |].
  rewrite app_cons. simpl. rewrite IH. now rewrite andb_assoc.
Qed.

Lemma clean_string_cons c r :
  _clean_string (String c r) =
  if Py.char_in (Py.lower_char c) Py.punctuation then _clean_string r
  else String (Py.lower_char c) (_clean_string r).
Proof. reflexivity. Qed.

Lemma clean_string_chars s : Py.all_chars clean_char (_clean_string s) = true.
Proof.
  induction s as [|c r IH]; [reflexivity |].
  rewrite clean_string_cons.
  destruct (Py.char_in (Py.lower_char c) Py.punctuation) eqn:E; [exact IH |].
  simpl. rewrite IH, andb_true_r.
  unfold clean_char. now rewrite lower_char_not_upper, E.
Qed.

Lemma clean_string_id s : Py.all_chars clean_char s = true -> _clean_string s = s.
Proof.
  induction s as [|c r IH]; [reflexivity |].
  simpl. intros H. apply andb_true_iff in H as [Hc Hr].
  rewrite clean_string_cons, (lower_char_clean c Hc).
  unfold clean_char in Hc. apply andb_true_iff in Hc as [_ Hp].
  apply negb_true_iff in Hp. rewrite Hp. now rewrite IH.
Qed.

Lemma clean_string_app a b : _clean_string (a +:+ b) = _clean_string a +:+ _clean_string b.
Proof.
  induction a as [|c r IH]; [reflexivity |].
  rewrite app_cons, !clean_string_cons, IH.
  now destruct (Py.char_in (Py.lower_char c) Py.punctuation).
Qed.

(** *** [split] *)

Lemma flush_nonempty c (s : string) : Py.flush (String c s) = [String c s].
Proof. reflexivity. Qed.

Lemma split_from_nospace s : forall cur,
  Py.all_chars nospace s = true -> Py.split_from cur s = Py.flush (cur +:+ s).
Proof.
  induction s as [|c r IH]; intros cur H; simpl.
  - now rewrite app_empty_r.
  - simpl in H. apply andb_true_iff in H as [Hc Hr].
    unfold nospace in Hc. apply negb_true_iff in Hc. rewrite Hc.
    rewrite (IH _ Hr). now rewrite app_String_assoc.
Qed.

Lemma split_nospace s :
  s <> EmptyString -> Py.all_chars nospace s = true -> Py.split s = [s].
Proof.
  intros Hne H. unfold Py.split. rewrite (split_from_nospace _ _ H). simpl.
  destruct s; [congruence | reflexivity].
Qed.

Lemma split_from_app_space a : forall cur sp b,
  Py.isspace sp = true ->
  Py.split_from cur (a +:+ String sp b) = Py.split_from cur a ++ Py.split b.
Proof.
  induction a as [|c r IH]; intros cur sp b Hsp; rewrite ?app_nil, ?app_cons; simpl.
  - now rewrite Hsp.
  - destruct (Py.isspace c).
    + rewrite (IH _ _ _ Hsp). now rewrite app_assoc.
    + now apply IH.
Qed.

Lemma split_app_space a sp b :
  Py.isspace sp = true -> Py.split (a +:+ String sp b) = Py.split a ++ Py.split b.
Proof. apply split_from_app_space. Qed.

Lemma flush_Forall (P : string -> Prop) cur :
  (cur <> EmptyString -> P cur) -> Forall P (Py.flush cur).
Proof.
  intros H. destruct cur; simpl; [constructor |].
  constructor; [apply H; congruence | constructor].
Qed.

(** Every token keeps a property that all characters of the text have,
    is not empty and holds no whitespace. *)
Lemma split_from_tokens p s : forall cur,
  Py.all_chars p cur = true -> Py.all_chars p s = true ->
  Py.all_chars nospace cur = true ->
  Forall (fun t => t <> EmptyString /\ Py.all_chars p t = true /\
                   Py.all_chars nospace t = true) (Py.split_from cur s).
Proof.
  induction s as [|c r IH]; intros cur Hcur Hs Hn; simpl.
  - apply flush_Forall. auto.
  - simpl in Hs. apply andb_true_iff in Hs as [Hc Hr].
    destruct (Py.isspace c) eqn:E.
    + apply Forall_app. split; [apply flush_Forall; auto |].
      apply IH; auto.
    + apply IH; auto.
      * rewrite all_chars_app. simpl. now rewrite Hcur, Hc.
      * rewrite all_chars_app. simpl. unfold nospace at 2. now rewrite Hn, E.
Qed.

Lemma split_tokens p s :
  Py.all_chars p s = true ->
  Forall (fun t => t <> EmptyString /\ Py.all_chars p t = true /\
                   Py.all_chars nospace t = true) (Py.split s).
Proof. intros H. now apply split_from_tokens. Qed.

Lemma all_chars_true s : Py.all_chars (fun _ => true) s = true.
Proof. induction s; simpl; auto. Qed.

Lemma split_token_nospace s t :
  In t (Py.split s) -> t <> EmptyString /\ Py.all_chars nospace t = true.
Proof.
  intros Hin.
  pose proof (split_tokens (fun _ => true) s (all_chars_true s)) as H.
  rewrite Forall_forall in H. destruct (H t) as (? & _ & ?); auto.
  apply list_elem_of_In; exact Hin.
Qed.

(** *** [strip] and slices *)

Lemma lstrip_nospace s : Py.all_chars nospace s = true -> Py.lstrip s = s.
Proof.
  destruct s as [|c r]; [reflexivity |]. simpl. intros H.
  apply andb_true_iff in H as [Hc _]. unfold nospace in Hc.
  apply negb_true_iff in Hc. now rewrite Hc.
Qed.

Lemma rstrip_nospace s : Py.all_chars nospace s = true -> Py.rstrip s = s.
Proof.
  induction s as [|c r IH]; [reflexivity |]. simpl. intros H.
  apply andb_true_iff in H as [Hc Hr]. rewrite (IH Hr).
  unfold nospace in Hc. apply negb_true_iff in Hc. rewrite Hc.
  now destruct r.
Qed.

Lemma strip_nospace s : Py.all_chars nospace s = true -> Py.strip s = s.
Proof.
  intros H. unfold Py.strip. rewrite (lstrip_nospace _ H). now apply rstrip_nospace.
Qed.

Lemma slice_to_chars p n : forall s,
  Py.all_chars p s = true -> Py.all_chars p (Py.slice_to n s) = true.
Proof.
  unfold Py.slice_to. induction n as [|n IH]; intros [|c r] H; simpl; auto.
  simpl in H. apply andb_true_iff in H as [Hc Hr]. rewrite Hc. simpl. now apply IH.
Qed.

Lemma slice_to_length n : forall s,
  String.length (Py.slice_to n s) = Nat.min n (String.length s).
Proof.
  unfold Py.slice_to. induction n as [|n IH]; intros [|c r]; simpl; auto.
Qed.

Lemma slice_to_all n : forall s, String.length s <= n -> Py.slice_to n s = s.
Proof.
  unfold Py.slice_to. induction n as [|n IH]; intros [|c r] H; simpl in *; auto; try lia.
  f_equal. apply IH. lia.
Qed.

End StringFacts.

(** * Facts about the index *)

Section IndexFacts.

Implicit Types (index : gmap string (gset nat)) (corpus : list Document).

Lemma fuzzify_In w x :
  In x (_fuzzify w) <->
  x = w \/ exists n, 3 <= n <= String.length w /\ x = Py.slice_to n w.
Proof.
  unfold _fuzzify, Py.range. rewrite in_app_iff, in_map_iff. simpl. split.
  - intros [(n & <- & Hn) | [<- | []]]; [right | now left].
    apply in_seq in Hn. exists n. split; [lia | reflexivity].
  - intros [-> | (n & Hn & ->)]; [right; now left | left].
    exists n. split; [reflexivity |]. apply in_seq. lia.
Qed.

(** The terms under which a document is filed. *)
Definition doc_terms (d : Document) : list string :=
  flat_map _fuzzify (Py.split (_clean_string (Py.join " " (tuple_items d)))).

Definition lookup_set index (t : string) : gset nat := default ∅ (index !! t).

Definition entries_nonempty index : Prop :=
  forall t s, index !! t = Some s -> s <> ∅.

Definition add_all (terms : list string) (idx : nat) index : gmap string (gset nat) :=
  fold_left (fun index x => index_add x idx index) terms index.

Lemma index_add_lookup x i index t p :
  p ∈ lookup_set (index_add x i index) t <->
  p ∈ lookup_set index t \/ (p = i /\ t = x).
Proof.
  unfold lookup_set, index_add.
  destruct (decide (x = t)) as [->|Hne].
  - rewrite lookup_insert_eq. simpl. rewrite elem_of_union, elem_of_singleton.
    naive_solver.
  - rewrite lookup_insert_ne by done. naive_solver.
Qed.

Lemma index_add_nonempty x i index :
  entries_nonempty index -> entries_nonempty (index_add x i index).
Proof.
  intros H t s. unfold index_add.
  destruct (decide (x = t)) as [->|Hne].
  - rewrite lookup_insert_eq. intros [= <-]. set_solver.
  - rewrite lookup_insert_ne by done. apply H.
Qed.

Lemma add_all_lookup terms i : forall index t p,
  p ∈ lookup_set (add_all terms i index) t <->
  p ∈ lookup_set index t \/ (p = i /\ In t terms).
Proof.
  unfold add_all. induction terms as [|x r IH]; intros index t p; simpl.
  - naive_solver.
  - rewrite IH, index_add_lookup. naive_solver.
Qed.

Lemma add_all_nonempty terms i : forall index,
  entries_nonempty index -> entries_nonempty (add_all terms i index).
Proof.
  unfold add_all. induction terms as [|x r IH]; intros index H; simpl; [exact H |].
  apply IH. now apply index_add_nonempty.
Qed.

Lemma fold_left_flat_map {A B C} (g : C -> B -> C) (f : A -> list B) l : forall acc,
  fold_left (fun acc a => fold_left g (f a) acc) l acc = fold_left g (flat_map f l) acc.
Proof.
  induction l as [|a r IH]; intros acc; simpl; [reflexivity |].
  now rewrite fold_left_app, IH.
Qed.

(** One round of the outer loop of [_build_index]. *)
Definition index_document index (entry : nat * Document) : gmap string (gset nat) :=
  let '(idx, document) := entry in
  let text := Py.join " " (tuple_items document) in
  let text_cleaned := _clean_string text in
  fold_left
    (fun index token =>
       fold_left (fun index x => index_add x idx index) (_fuzzify token) index)
    (Py.split text_cleaned) index.

Lemma index_document_add_all index i d :
  index_document index (i, d) = add_all (doc_terms d) i index.
Proof. unfold index_document, add_all, doc_terms. apply fold_left_flat_map. Qed.

Lemma build_index_unfold corpus :
  _build_index corpus = fold_left index_document (enumerate_from 0 corpus) ∅.
Proof.
  unfold _build_index. f_equal.
Qed.

Lemma build_from_lookup corpus : forall i index t p,
  p ∈ lookup_set (fold_left index_document (enumerate_from i corpus) index) t <->
  p ∈ lookup_set index t \/
  (i <= p /\ exists d, corpus !! (p - i) = Some d /\ In t (doc_terms d)).
Proof.
  induction corpus as [|d r IH]; intros i index t p; cbn [enumerate_from fold_left].
  - rewrite lookup_nil. naive_solver.
  - rewrite IH, index_document_add_all, add_all_lookup. split.
    + intros [[H | [-> H]] | (Hle & d' & Hd' & Ht)].
      * now left.
      * right. split; [lia |]. exists d. rewrite Nat.sub_diag. auto.
      * right. split; [lia |]. exists d'. split; [| exact Ht].
        replace (p - i) with (S (p - S i)) by lia. exact Hd'.
    + intros [H | (Hle & d' & Hd' & Ht)]; [left; now left |].
      destruct (decide (p = i)) as [->|Hne].
      * rewrite Nat.sub_diag in Hd'. simpl in Hd'. injection Hd' as <-.
        left. right. auto.
      * right. split; [lia |]. exists d'. split; [| exact Ht].
        replace (p - i) with (S (p - S i)) in Hd' by lia. exact Hd'.
Qed.

(** The invariant of the index: position [p] is filed under [t] exactly
    when [t] is a fuzzification of a token of the document at [p]. *)
Lemma build_index_lookup corpus t p :
  p ∈ lookup_set (_build_index corpus) t <->
  exists d, corpus !! p = Some d /\ In t (doc_terms d).
Proof.
  rewrite build_index_unfold, build_from_lookup.
  unfold lookup_set at 1. rewrite lookup_empty. simpl.
  rewrite Nat.sub_0_r. split.
  - intros [H | (_ & H)]; [set_solver | exact H].
  - intros H. right. split; [lia | exact H].
Qed.

Lemma build_from_nonempty corpus : forall i index,
  entries_nonempty index ->
  entries_nonempty (fold_left index_document (enumerate_from i corpus) index).
Proof.
  induction corpus as [|d r IH]; intros i index H; cbn [enumerate_from fold_left];
    [exact H |].
  apply IH. rewrite index_document_add_all. now apply add_all_nonempty.
Qed.

Lemma build_index_nonempty corpus : entries_nonempty (_build_index corpus).
Proof.
  rewrite build_index_unfold. apply build_from_nonempty.
  intros t s. now rewrite lookup_empty.
Qed.

Lemma build_index_entry corpus t s :
  _build_index corpus !! t = Some s ->
  s <> ∅ /\ forall p, p ∈ s <-> exists d, corpus !! p = Some d /\ In t (doc_terms d).
Proof.
  intros H. split; [now apply (build_index_nonempty corpus t) |].
  intros p. rewrite <- build_index_lookup. unfold lookup_set. now rewrite H.
Qed.

(** A term some document is filed under has an entry. *)
Lemma build_index_has_entry corpus t p d :
  corpus !! p = Some d -> In t (doc_terms d) ->
  exists s, _build_index corpus !! t = Some s /\ p ∈ s.
Proof.
  intros Hd Ht.
  assert (p ∈ lookup_set (_build_index corpus) t) as H
    by (apply build_index_lookup; eauto).
  unfold lookup_set in H.
  destruct (_build_index corpus !! t) as [s|]; simpl in H; [eauto | set_solver].
Qed.

(** The terms of the index are fuzzifications of tokens: they are not
    empty, hold no whitespace and are left alone by [_clean_string]. *)
Lemma doc_terms_shape d t :
  In t (doc_terms d) ->
  t <> EmptyString /\ Py.all_chars nospace t = true /\ Py.all_chars clean_char t = true.
Proof.
  unfold doc_terms. rewrite in_flat_map. intros (w & Hw & Ht).
  pose proof (split_tokens clean_char _ (clean_string_chars (Py.join " " (tuple_items d)))) as H.
  rewrite Forall_forall in H.
  destruct (H w) as (Hne & Hc & Hn); [apply list_elem_of_In; exact Hw |].
  apply fuzzify_In in Ht as [-> | (n & Hn3 & ->)]; [auto |].
  split; [| split; now apply slice_to_chars].
  intros E. pose proof (slice_to_length n w) as L. rewrite E in L. simpl in L.
  destruct w; [congruence | simpl in L; lia].
Qed.

End IndexFacts.

(** * Running the methods *)

Section RunFacts.

Local Open Scope py_scope.

(** The state after the reads [l] have been logged. *)
Definition logged (st : state) (l : list access) : state :=
  {| self := self st; reads := reads st ++ l |}.

Lemma logged_nil st : logged st [] = st.
Proof. destruct st. unfold logged. simpl. now rewrite app_nil_r. Qed.

Lemma logged_logged st l1 l2 : logged (logged st l1) l2 = logged st (l1 ++ l2).
Proof. unfold logged. simpl. now rewrite app_assoc. Qed.

Lemma log_logged a st : log a st = logged st [a].
Proof. reflexivity. Qed.

(** The sets found for the terms of a query. *)
Definition matches (e : self_t) (terms : list string) : list (gset nat) :=
  omap (fun term => truthy (_index e !! term)) terms.

Definition collect (idx_matchs_all : list (gset nat)) (term : string)
    : M (list (gset nat)) :=
  m <- index_get term ;;
  match truthy m with
  | Some s => ret (idx_matchs_all ++ [s])
  | None => ret idx_matchs_all
  end.

Lemma foldM_collect terms : forall acc st,
  foldM collect terms acc st =
  (Return (acc ++ matches (self st) terms), logged st (map IndexGet terms)).
Proof.
  induction terms as [|t r IH]; intros acc st; simpl.
  - unfold ret. now rewrite app_nil_r, logged_nil.
  - unfold bind at 1, collect at 1, bind at 1, index_get at 1.
    unfold matches. simpl.
    destruct (truthy (_index (self st) !! t)) as [s|]; unfold ret;
      rewrite IH, log_logged, logged_logged; simpl; unfold matches;
      [now rewrite <- app_assoc | reflexivity].
Qed.

Lemma mapM_getitem l : forall st,
  (forall i, In i l -> is_Some (_corpus (self st) !! i)) ->
  exists ds,
    mapM corpus_getitem l st = (Return ds, logged st (map CorpusGetItem l)) /\
    Forall2 (fun i d => _corpus (self st) !! i = Some d) l ds.
Proof.
  induction l as [|i r IH]; intros st H; simpl.
  - exists []. unfold ret. rewrite logged_nil. split; [reflexivity | constructor].
  - destruct (H i) as [d Hd]; [now left |].
    destruct (IH (log (CorpusGetItem i) st)) as (ds & Hrun & Hds).
    { intros j Hj. simpl. apply H. now right. }
    exists (d :: ds). unfold bind at 1, corpus_getitem at 1. rewrite Hd.
    unfold bind at 1. rewrite Hrun. unfold ret.
    rewrite log_logged, logged_logged. simpl. split; [reflexivity |].
    constructor; [exact Hd | exact Hds].
Qed.

Lemma set_intersection_elem others : forall s p,
  p ∈ set_intersection s others <-> p ∈ s /\ forall t, In t others -> p ∈ t.
Proof.
  unfold set_intersection. induction others as [|o r IH]; intros s p; simpl.
  - naive_solver.
  - rewrite IH, elem_of_intersection. naive_solver.
Qed.

(** The positions selected by a list of matched sets. *)
Definition selected (ms : list (gset nat)) : gset nat :=
  match ms with
  | [] => ∅
  | s :: others => set_intersection s others
  end.

Lemma selected_elem ms p :
  p ∈ selected ms <-> ms <> [] /\ forall s, In s ms -> p ∈ s.
Proof.
  destruct ms as [|s o]; simpl.
  - split; [set_solver | intros [H _]; congruence].
  - rewrite set_intersection_elem. split.
    + intros [H1 H2]. split; [congruence |]. intros t [<- | Ht]; auto.
    + intros [_ H]. split; [apply H; now left |]. intros t Ht. apply H. now right.
Qed.

Lemma get_results_unfold query :
  _get_results query =
  (idx_matchs_all <- foldM collect (Py.split query) [] ;;
   match idx_matchs_all with
   | [] => ret []
   | s :: others => mapM corpus_getitem (elements (set_intersection s others))
   end).
Proof. reflexivity. Qed.

(** [_get_results] on a state whose selected positions are in the corpus:
    one document for each selected position, in the order of iteration
    of the set. *)
Lemma get_results_run query st :
  let ms := matches (self st) (Py.split query) in
  (forall p, p ∈ selected ms -> is_Some (_corpus (self st) !! p)) ->
  exists ds,
    _get_results query st =
      (Return ds,
       logged st (map IndexGet (Py.split query) ++
                  map CorpusGetItem (elements (selected ms)))) /\
    Forall2 (fun i d => _corpus (self st) !! i = Some d) (elements (selected ms)) ds.
Proof.
  intros ms Hin. rewrite get_results_unfold. unfold bind.
  rewrite foldM_collect. simpl. fold ms.
  destruct ms as [|s o] eqn:E.
  - exists []. unfold ret. simpl. rewrite elements_empty. simpl.
    rewrite app_nil_r. split; [reflexivity | constructor].
  - destruct (mapM_getitem (elements (set_intersection s o))
                (logged st (map IndexGet (Py.split query)))) as (ds & Hrun & Hds).
    { intros i Hi. simpl. apply Hin. simpl. apply elem_of_elements.
      apply list_elem_of_In. exact Hi. }
    exists ds. rewrite Hrun, logged_logged. split; [reflexivity | exact Hds].
Qed.

(** *** Methods only read [self] *)

Definition preserves_self {A} (m : M A) : Prop :=
  forall st, self (snd (m st)) = self st.

Lemma ret_preserves {A} (a : A) : preserves_self (ret a).
Proof. intros st. reflexivity. Qed.

Lemma raise_preserves {A} (e : exn) : preserves_self (@raise A e).
Proof. intros st. reflexivity. Qed.

Lemma lift_preserves {A} (o : outcome A) : preserves_self (lift o).
Proof. intros st. reflexivity. Qed.

Lemma bind_preserves {A B} (m : M A) (k : A -> M B) :
  preserves_self m -> (forall a, preserves_self (k a)) -> preserves_self (bind m k).
Proof.
  intros Hm Hk st. unfold bind. specialize (Hm st).
  destruct (m st) as [[a|e] st']; simpl in *; [| exact Hm].
  now rewrite Hk.
Qed.

Lemma index_get_preserves term : preserves_self (index_get term).
Proof. intros st. reflexivity. Qed.

Lemma corpus_getitem_preserves idx : preserves_self (corpus_getitem idx).
Proof. intros st. reflexivity. Qed.

Lemma mapM_preserves {A B} (f : A -> M B) l :
  (forall a, preserves_self (f a)) -> preserves_self (mapM f l).
Proof.
  intros Hf. induction l as [|x r IH]; simpl; [apply ret_preserves |].
  apply bind_preserves; [apply Hf |]. intros y.
  apply bind_preserves; [exact IH |]. intros ys. apply ret_preserves.
Qed.

Lemma foldM_preserves {A B} (f : B -> A -> M B) l :
  (forall b a, preserves_self (f b a)) -> forall acc, preserves_self (foldM f l acc).
Proof.
  intros Hf. induction l as [|x r IH]; intros acc; simpl; [apply ret_preserves |].
  apply bind_preserves; [apply Hf | exact IH].
Qed.

Lemma get_results_preserves query : preserves_self (_get_results query).
Proof.
  unfold _get_results. apply bind_preserves.
  - apply foldM_preserves. intros acc term.
    apply bind_preserves; [apply index_get_preserves |].
    intros m. destruct (truthy m); apply ret_preserves.
  - intros [|s others]; [apply ret_preserves |].
    apply mapM_preserves, corpus_getitem_preserves.
Qed.

Lemma evaluate_query_preserves query sort_by t1 t2 :
  preserves_self (evaluate_query query sort_by t1 t2).
Proof.
  unfold evaluate_query. apply bind_preserves; [apply lift_preserves |].
  intros _. apply bind_preserves; [apply get_results_preserves |].
  intros results. apply bind_preserves; [| intros r; apply ret_preserves].
  destruct (sort_by_given sort_by); [apply lift_preserves | apply ret_preserves].
Qed.

End RunFacts.

(** * Facts about sorting *)

Section SortFacts.

Context {A : Type}.
Implicit Types (x y : nat * A) (l : list (nat * A)).

Definition key_le x y : Prop := fst x <= fst y.

Lemma insert_sorted_perm x l : Permutation (insert_sorted x l) (x :: l).
Proof.
  induction l as [|y r IH]; simpl; [reflexivity |].
  destruct (fst x <=? fst y)%nat; [reflexivity |].
  rewrite IH. apply perm_swap.
Qed.

Lemma sorted_perm l : Permutation (sorted l) l.
Proof.
  induction l as [|x r IH]; simpl; [reflexivity |].
  rewrite insert_sorted_perm. now rewrite IH.
Qed.

Lemma insert_sorted_sorted x l :
  StronglySorted key_le l -> StronglySorted key_le (insert_sorted x l).
Proof.
  induction l as [|y r IH]; intros Hs; simpl.
  - constructor; constructor.
  - inversion_clear Hs as [|? ? Hr Hy].
    destruct (fst x <=? fst y)%nat eqn:E.
    + apply Nat.leb_le in E. constructor; [constructor; assumption |].
      constructor; [exact E |].
      eapply Forall_impl; [exact Hy |]. unfold key_le. simpl. intros; lia.
    + apply Nat.leb_gt in E. constructor; [now apply IH |].
      apply Forall_forall. intros z Hz.
      apply list_elem_of_In in Hz.
      apply (Permutation_in _ (insert_sorted_perm x r)) in Hz.
      destruct Hz as [<- | Hz]; [unfold key_le; lia |].
      rewrite Forall_forall in Hy. apply Hy. now apply list_elem_of_In.
Qed.

Lemma sorted_sorted l : StronglySorted key_le (sorted l).
Proof.
  induction l as [|x r IH]; simpl; [constructor |].
  now apply insert_sorted_sorted.
Qed.

Definition has_key (k : nat) x : bool := (fst x =? k)%nat.

(** Inserting into a sorted list puts the new element in front of the
    elements that have its key. *)
Lemma insert_sorted_filter k x l :
  StronglySorted key_le l ->
  List.filter (has_key k) (insert_sorted x l) = List.filter (has_key k) (x :: l).
Proof.
  induction l as [|y r IH]; intros Hs; [reflexivity |].
  cbn [insert_sorted]. inversion_clear Hs as [|? ? Hr Hy].
  destruct (fst x <=? fst y)%nat eqn:E; [reflexivity |].
  apply Nat.leb_gt in E.
  cbn [List.filter]. rewrite (IH Hr). cbn [List.filter].
  destruct (has_key k y) eqn:Ey, (has_key k x) eqn:Ex; try reflexivity.
  unfold has_key in Ey, Ex. apply Nat.eqb_eq in Ey, Ex. lia.
Qed.

(** Stability: the elements of one key come out in the order they came in. *)
Lemma sorted_stable k l :
  List.filter (has_key k) (sorted l) = List.filter (has_key k) l.
Proof.
  induction l as [|x r IH]; [reflexivity |].
  cbn [sorted]. rewrite insert_sorted_filter by apply sorted_sorted.
  cbn [List.filter]. now rewrite IH.
Qed.

End SortFacts.

Section KeyedSort.

Context {A : Type} (key : A -> nat).

Definition keyed (l : list A) : list (nat * A) := combine (map key l) l.

Lemma keyed_map l : keyed l = map (fun a => (key a, a)) l.
Proof. unfold keyed. induction l as [|a r IH]; simpl; congruence. Qed.

Lemma keyed_snd l : map snd (keyed l) = l.
Proof. rewrite keyed_map, map_map. simpl. apply map_id. Qed.

Lemma keyed_coherent l p : In p (sorted (keyed l)) -> fst p = key (snd p).
Proof.
  intros H. apply (Permutation_in _ (sorted_perm (keyed l))) in H.
  rewrite keyed_map in H. apply in_map_iff in H as (a & <- & _). reflexivity.
Qed.

Definition sort_by_key (l : list A) : list A := map snd (sorted (keyed l)).

Lemma sort_by_key_perm l : Permutation (sort_by_key l) l.
Proof.
  unfold sort_by_key. rewrite (sorted_perm (keyed l)). now rewrite keyed_snd.
Qed.

Lemma StronglySorted_map_snd (ps : list (nat * A)) :
  (forall p, In p ps -> fst p = key (snd p)) ->
  StronglySorted key_le ps ->
  StronglySorted (fun a b => key a <= key b) (map snd ps).
Proof.
  induction ps as [|p r IH]; intros Hc Hs; simpl; [constructor |].
  inversion_clear Hs as [|? ? Hr Hp]. constructor.
  - apply IH; [| exact Hr]. intros q Hq. apply Hc. now right.
  - apply Forall_forall. intros b Hb. apply list_elem_of_In in Hb.
    apply in_map_iff in Hb as (q & <- & Hq).
    rewrite Forall_forall in Hp. specialize (Hp q).
    unfold key_le in Hp. rewrite <- (Hc p), <- (Hc q); [| now right | now left].
    apply Hp. now apply list_elem_of_In.
Qed.

Lemma sort_by_key_sorted l :
  StronglySorted (fun a b => key a <= key b) (sort_by_key l).
Proof.
  apply StronglySorted_map_snd; [apply keyed_coherent | apply sorted_sorted].
Qed.

Lemma filter_map_snd k (ps : list (nat * A)) :
  (forall p, In p ps -> fst p = key (snd p)) ->
  List.filter (fun a => key a =? k)%nat (map snd ps) =
  map snd (List.filter (has_key k) ps).
Proof.
  induction ps as [|p r IH]; intros Hc; [reflexivity |].
  cbn [map List.filter]. unfold has_key at 1.
  rewrite (Hc p) by now left.
  rewrite IH by (intros q Hq; apply Hc; now right).
  now destruct (key (snd p) =? k)%nat.
Qed.

Lemma sort_by_key_stable k l :
  List.filter (fun a => key a =? k)%nat (sort_by_key l) =
  List.filter (fun a => key a =? k)%nat l.
Proof.
  unfold sort_by_key.
  rewrite filter_map_snd by apply keyed_coherent.
  rewrite sorted_stable.
  rewrite <- filter_map_snd.
  - now rewrite keyed_snd.
  - intros p Hp. rewrite keyed_map in Hp.
    apply in_map_iff in Hp as (a & <- & _). reflexivity.
Qed.

End KeyedSort.

(** * Facts about [_sort_results] *)

Section SortResultsFacts.

(** The value of the field [name] of a document, if it has that field. *)
Definition field_value (d : Document) (name : string) : option string :=
  assoc name (combine (_fields d) (tuple_items d)).

(** The cleaned text of the attribute [name], when it is a [str]. *)
Definition attr_text (name : string) (d : Document) : option string :=
  match getattr d name with
  | Some (PyStr text) => Some (_clean_string text)
  | _ => None
  end.

(** The text of the attribute contains the term. *)
Definition has_term (term name : string) (d : Document) : bool :=
  match attr_text name d with
  | Some txt => Py.str_in term txt
  | None => false
  end.

(** The 0-based index of the first whitespace token of [text] that
    contains [term]. *)
Definition first_token_index (term text : string) : option nat :=
  fst <$> list_find (fun tok => Py.str_in term tok = true) (Py.split text).

Definition sort_key (term name : string) (d : Document) : nat :=
  default 0 (attr_text name d ≫= first_token_index term).

Lemma field_value_getattr d name v :
  field_value d name = Some v -> getattr d name = Some (PyStr v).
Proof. unfold field_value, getattr. now intros ->. Qed.

Lemma field_value_attr_text d name v :
  field_value d name = Some v -> attr_text name d = Some (_clean_string v).
Proof. intros H. unfold attr_text. now rewrite (field_value_getattr _ _ _ H). Qed.

(** *** Substrings and tokens *)

Lemma prefix_empty t : t <> EmptyString -> String.prefix t EmptyString = false.
Proof. destruct t; [congruence | reflexivity]. Qed.

Lemma str_in_empty t : t <> EmptyString -> Py.str_in t EmptyString = false.
Proof. destruct t; [congruence | reflexivity]. Qed.

Lemma prefix_cons a t b s :
  String.prefix (String a t) (String b s) = true <-> a = b /\ String.prefix t s = true.
Proof.
  simpl. destruct (ascii_dec a b) as [->|Hne]; [tauto |].
  split; [discriminate | intros [? _]; contradiction].
Qed.

Lemma prefix_app_space t : forall x sp y,
  Py.all_chars nospace t = true -> Py.isspace sp = true ->
  String.prefix t (x +:+ String sp y) = true -> String.prefix t x = true.
Proof.
  induction t as [|a t IH]; intros x sp y Hn Hsp H; [now destruct x |].
  simpl in Hn. apply andb_true_iff in Hn as [Ha Ht].
  destruct x as [|b x].
  - rewrite app_nil in H. apply prefix_cons in H as [-> _].
    unfold nospace in Ha. rewrite Hsp in Ha. discriminate.
  - rewrite app_cons in H. apply prefix_cons in H as [-> H].
    apply prefix_cons. split; [reflexivity |]. eapply IH; eauto.
Qed.

Lemma str_in_cons t c s :
  Py.str_in t (String c s) = String.prefix t (String c s) || Py.str_in t s.
Proof. reflexivity. Qed.

Lemma str_in_app_space t x : forall sp y,
  t <> EmptyString -> Py.all_chars nospace t = true -> Py.isspace sp = true ->
  Py.str_in t (x +:+ String sp y) = true ->
  Py.str_in t x = true \/ Py.str_in t y = true.
Proof.
  induction x as [|b x IH]; intros sp y Hne Hn Hsp H.
  - rewrite app_nil, str_in_cons in H. apply orb_true_iff in H as [H | H]; [| now right].
    apply (prefix_app_space t EmptyString sp y Hn Hsp) in H.
    now rewrite prefix_empty in H.
  - rewrite app_cons, str_in_cons in H. apply orb_true_iff in H as [H | H].
    + left. rewrite str_in_cons. apply orb_true_iff. left.
      apply (prefix_app_space t (String b x) sp y Hn Hsp). now rewrite app_cons.
    + destruct (IH sp y Hne Hn Hsp H) as [H' | H']; [left | now right].
      rewrite str_in_cons. apply orb_true_iff. now right.
Qed.

(** A term without whitespace that occurs in a text occurs in one of
    its tokens. *)
Lemma split_from_has_term t s : forall cur,
  t <> EmptyString -> Py.all_chars nospace t = true ->
  Py.str_in t (cur +:+ s) = true ->
  exists tok, In tok (Py.split_from cur s) /\ Py.str_in t tok = true.
Proof.
  induction s as [|c r IH]; intros cur Hne Hn H.
  - rewrite app_empty_r in H. simpl.
    destruct cur as [|a cur]; [now rewrite str_in_empty in H |].
    exists (String a cur). split; [now left | exact H].
  - cbn [Py.split_from]. destruct (Py.isspace c) eqn:E.
    + destruct (str_in_app_space t cur c r Hne Hn E H) as [H' | H'].
      * destruct cur as [|a cur]; [now rewrite str_in_empty in H' |].
        exists (String a cur). split; [| exact H'].
        apply in_app_iff. left. now left.
      * destruct (IH EmptyString Hne Hn) as (tok & Hin & Htok); [exact H' |].
        exists tok. split; [| exact Htok]. apply in_app_iff. now right.
    + apply IH; auto. now rewrite app_String_assoc.
Qed.

Lemma split_has_term t s :
  t <> EmptyString -> Py.all_chars nospace t = true ->
  Py.str_in t s = true ->
  exists tok, In tok (Py.split s) /\ Py.str_in t tok = true.
Proof. intros Hne Hn H. now apply split_from_has_term. Qed.

(** *** The key function *)

Lemma positions_from_find term tokens : forall i,
  item0 (positions_from i term tokens) =
  match list_find (fun tok => Py.str_in term tok = true) tokens with
  | Some (j, _) => Return (i + j)
  | None => Raise (IndexError "list index out of range")
  end.
Proof.
  induction tokens as [|tok r IH]; intros i; [reflexivity |].
  cbn [positions_from list_find].
  destruct (Py.str_in term tok) eqn:E.
  - rewrite decide_True by reflexivity. simpl. now rewrite Nat.add_0_r.
  - rewrite decide_False by discriminate. rewrite IH.
    destruct (list_find _ r) as [[j x]|]; simpl; [| reflexivity].
    now rewrite Nat.add_succ_r.
Qed.

Lemma list_find_exists (P : string -> Prop) `{forall x, Decision (P x)} l tok :
  In tok l -> P tok -> is_Some (list_find P l).
Proof.
  intros Hin HP. destruct (list_find P l) eqn:E; [eauto |].
  apply list_find_None in E. rewrite Forall_forall in E.
  exfalso. apply (E tok); [now apply list_elem_of_In | exact HP].
Qed.

Lemma sorter_ok term name d :
  term <> EmptyString -> Py.all_chars nospace term = true ->
  has_term term name d = true ->
  sorter term name d = Return (sort_key term name d) /\
  exists txt, attr_text name d = Some txt /\
              first_token_index term txt = Some (sort_key term name d).
Proof.
  intros Hne Hn Hhas. unfold has_term in Hhas. unfold sorter, sort_key.
  unfold attr_text in *.
  destruct (getattr d name) as [[text|ty]|]; try discriminate.
  cbn [obind clean_attr option_bind mbind].
  rewrite positions_from_find. unfold first_token_index.
  destruct (split_has_term term _ Hne Hn Hhas) as (tok & Hin & Htok).
  destruct (list_find_exists (fun tok => Py.str_in term tok = true) _ tok Hin Htok)
    as [[j x] Hj].
  rewrite Hj. simpl. split; [reflexivity |].
  exists (_clean_string text). split; [reflexivity |]. now rewrite Hj.
Qed.

Lemma omapM_ok {A B} (f : A -> outcome B) (g : A -> B) l :
  (forall a, In a l -> f a = Return (g a)) -> omapM f l = Return (map g l).
Proof.
  induction l as [|a r IH]; intros H; [reflexivity |].
  cbn [omapM map]. rewrite H by now left. cbn [obind].
  rewrite IH by (intros; apply H; now right). reflexivity.
Qed.

(** *** The loop that splits the results *)

Lemma partition_results_ok term name results : forall to_sort the_rest,
  (forall d, In d results -> is_Some (attr_text name d)) ->
  partition_results term name results to_sort the_rest =
  Return (to_sort ++ List.filter (has_term term name) results,
          the_rest ++ List.filter (fun d => negb (has_term term name d)) results).
Proof.
  induction results as [|d r IH]; intros to_sort the_rest H.
  - simpl. now rewrite !app_nil_r.
  - destruct (H d) as [txt Htxt]; [now left |].
    assert (has_term term name d = Py.str_in term txt) as Hh
      by (unfold has_term; now rewrite Htxt).
    cbn [partition_results List.filter]. rewrite Hh.
    unfold attr_text in Htxt.
    destruct (getattr d name) as [[text|ty]|]; try discriminate.
    injection Htxt as <-. cbn [obind clean_attr].
    destruct (Py.str_in term (_clean_string text)); simpl;
      rewrite IH by (intros; apply H; now right);
      now rewrite <- app_assoc.
Qed.

Lemma partition_results_inv term name results : forall to_sort the_rest out,
  partition_results term name results to_sort the_rest = Return out ->
  forall d, In d results -> is_Some (attr_text name d).
Proof.
  induction results as [|d r IH]; intros to_sort the_rest out H d' Hd'; [contradiction |].
  cbn [partition_results] in H. unfold attr_text.
  destruct (getattr d name) as [[text|ty]|] eqn:E; try discriminate.
  cbn [obind clean_attr] in H.
  destruct Hd' as [<- | Hd'].
  - rewrite E. eauto.
  - destruct (Py.str_in term (_clean_string text)); eapply IH; eauto.
Qed.

Lemma filter_split_perm {A} (f : A -> bool) l :
  Permutation (List.filter f l ++ List.filter (fun a => negb (f a)) l) l.
Proof.
  induction l as [|a r IH]; [reflexivity |].
  cbn [List.filter]. destruct (f a); simpl.
  - now constructor.
  - symmetry. apply Permutation_cons_app. now symmetry.
Qed.

(** *** The whole method *)

Lemma sort_results_ok query results sort_by term rest :
  Py.split query = term :: rest ->
  (forall d, In d results -> is_Some (attr_text (make_python_identifier sort_by) d)) ->
  _sort_results query results sort_by =
  Return (sort_by_key (sort_key term (make_python_identifier sort_by))
            (List.filter (has_term term (make_python_identifier sort_by)) results) ++
          List.filter (fun d => negb (has_term term (make_python_identifier sort_by) d))
            results).
Proof.
  intros Hq Hattr. unfold _sort_results. rewrite Hq. cbn [item0 obind].
  rewrite partition_results_ok by exact Hattr. cbn [obind app].
  destruct (split_token_nospace query term) as [Hne Hn]; [rewrite Hq; now left |].
  rewrite (omapM_ok _ (sort_key term (make_python_identifier sort_by))).
  - reflexivity.
  - intros d Hd. apply filter_In in Hd as [_ Hd].
    now apply sorter_ok.
Qed.

(** Whenever [_sort_results] returns, it returns a rearrangement of
    the results. *)
Lemma sort_results_perm query results sort_by out :
  _sort_results query results sort_by = Return out -> Permutation out results.
Proof.
  intros H.
  destruct (Py.split query) as [|term rest] eqn:Hq.
  { unfold _sort_results in H. rewrite Hq in H. discriminate. }
  assert (forall d, In d results ->
            is_Some (attr_text (make_python_identifier sort_by) d)) as Hattr.
  { unfold _sort_results in H. rewrite Hq in H. cbn [item0 obind] in H.
    destruct (partition_results term (make_python_identifier sort_by) results [] [])
      as [o|] eqn:E; [| discriminate].
    eapply partition_results_inv; eauto. }
  rewrite (sort_results_ok _ _ _ _ _ Hq Hattr) in H. injection H as <-.
  rewrite sort_by_key_perm. apply filter_split_perm.
Qed.

Lemma sort_results_nil query sort_by term rest :
  Py.split query = term :: rest -> _sort_results query [] sort_by = Return [].
Proof.
  intros Hq. rewrite (sort_results_ok _ _ _ _ _ Hq); [reflexivity |].
  intros d [].
Qed.

End SortResultsFacts.

(** * Facts about the construction of an engine *)

Section InitFacts.

(** The index of the engine is the one built from its corpus. *)
Definition built (e : self_t) : Prop := _index e = _build_index (_corpus e).

Lemma init_built rows skiprows e :
  FuzzySearchEngine rows skiprows = Return e -> built e.
Proof.
  unfold FuzzySearchEngine, built.
  destruct (_load_corpus rows skiprows) as [corpus|ex]; simpl; [| discriminate].
  now intros [= <-].
Qed.

Lemma in_list_In s l : in_list s l = true <-> In s l.
Proof.
  unfold in_list. rewrite existsb_exists. split.
  - intros (x & Hx & E). apply String.eqb_eq in E. now subst.
  - intros H. exists s. split; [exact H | apply String.eqb_refl].
Qed.

Lemma check_fields_NoDup names : forall seen,
  check_fields seen names = true ->
  NoDup names /\ forall n, In n names -> ~ In n seen.
Proof.
  induction names as [|x r IH]; intros seen H.
  - split; [constructor | intros n []].
  - cbn [check_fields] in H.
    apply andb_true_iff in H as [H Hr]. apply andb_true_iff in H as [_ Hx].
    apply negb_true_iff in Hx.
    destruct (IH _ Hr) as [Hnd Hdis]. split.
    + constructor; [| exact Hnd]. intros Hin. apply list_elem_of_In in Hin.
      apply (Hdis x Hin). now left.
    + intros n [<- | Hn] Hs.
      * apply in_list_In in Hs. congruence.
      * apply (Hdis n Hn). now right.
Qed.

Lemma namedtuple_NoDup field_names cls :
  namedtuple field_names = Return cls -> cls = field_names /\ NoDup cls.
Proof.
  unfold namedtuple.
  destruct (forallb _ field_names && check_fields [] field_names) eqn:E; [| discriminate].
  intros [= <-]. apply andb_true_iff in E as [_ E].
  split; [reflexivity |]. now apply check_fields_NoDup in E.
Qed.

Lemma omapM_Forall {A B} (f : A -> outcome B) (P : B -> Prop) l : forall out,
  (forall a b, f a = Return b -> P b) ->
  omapM f l = Return out -> Forall P out.
Proof.
  induction l as [|a r IH]; intros out Hf H.
  - injection H as <-. constructor.
  - cbn [omapM] in H. destruct (f a) as [b|] eqn:Ea; [| discriminate].
    cbn [obind] in H. destruct (omapM f r) as [bs|] eqn:Er; [| discriminate].
    injection H as <-. constructor; [eapply Hf; eauto | eapply IH; eauto].
Qed.

(** The documents of an engine are instances of one class, whose field
    names are distinct, and hold one value for each field. *)
Definition well_formed (cls : list string) (d : Document) : Prop :=
  _fields d = cls /\ length (tuple_items d) = length cls.

Lemma init_documents rows skiprows e :
  FuzzySearchEngine rows skiprows = Return e ->
  exists cls, NoDup cls /\ Forall (well_formed cls) (_corpus e).
Proof.
  unfold FuzzySearchEngine.
  destruct (_load_corpus rows skiprows) as [corpus|ex] eqn:E; simpl; [| discriminate].
  intros [= <-]. simpl. unfold _load_corpus in E.
  destruct (length rows <? _)%nat; [discriminate |].
  destruct (drop _ rows) as [|fields rest]; [discriminate |].
  destruct (namedtuple (map make_python_identifier fields)) as [cls|] eqn:En;
    [| discriminate].
  cbn [obind] in E. apply namedtuple_NoDup in En as [_ Hnd].
  exists cls. split; [exact Hnd |].
  eapply omapM_Forall; [| exact E].
  intros row d. unfold Document_new.
  destruct (length row =? length cls)%nat eqn:El; [| discriminate].
  apply Nat.eqb_eq in El. intros [= <-]. now split.
Qed.

(** *** [dict(zip(fields, values))] when the fields are distinct *)

Lemma dict_set_fresh k v d :
  ~ In k (map fst d) -> dict_set k v d = d ++ [(k, v)].
Proof.
  induction d as [|[k' v'] r IH]; intros H; [reflexivity |].
  cbn [dict_set]. destruct (String.eqb k k') eqn:E.
  - apply String.eqb_eq in E. subst. exfalso. apply H. now left.
  - rewrite IH; [reflexivity |]. intros Hin. apply H. now right.
Qed.

Lemma dict_fold_NoDup pairs : forall acc,
  NoDup (map fst (acc ++ pairs)) ->
  fold_left (fun d kv => dict_set (fst kv) (snd kv) d) pairs acc = acc ++ pairs.
Proof.
  induction pairs as [|[k v] r IH]; intros acc H; simpl.
  - now rewrite app_nil_r.
  - rewrite dict_set_fresh.
    + rewrite IH; rewrite <- app_assoc; [reflexivity | exact H].
    + rewrite map_app in H. simpl in H.
      apply NoDup_app in H as (_ & H & _). intros Hin.
      apply (H k); [now apply list_elem_of_In | now left].
Qed.

Lemma dict_NoDup pairs : NoDup (map fst pairs) -> dict pairs = pairs.
Proof. intros H. unfold dict. now rewrite dict_fold_NoDup. Qed.

Lemma combine_fst {A B} (l : list A) (l' : list B) :
  length l = length l' -> map fst (combine l l') = l.
Proof.
  revert l'. induction l as [|a r IH]; intros [|b r'] H; simpl in *; try congruence.
  f_equal. apply IH. lia.
Qed.

Lemma document_dict_well_formed cls d :
  NoDup cls -> well_formed cls d ->
  document_dict d = VDict (combine (_fields d) (map VStr (tuple_items d))).
Proof.
  intros Hnd [Hf Hl]. unfold document_dict. rewrite dict_NoDup; [reflexivity |].
  rewrite combine_fst; [now rewrite Hf |].
  rewrite length_map. congruence.
Qed.

(** *** The results of a built engine *)

Lemma truthy_entry e t s :
  built e -> _index e !! t = Some s -> truthy (_index e !! t) = Some s.
Proof.
  intros Hb H. rewrite H. simpl. rewrite decide_False; [reflexivity |].
  rewrite Hb in H. now apply build_index_entry in H as [H _].
Qed.

Lemma truthy_Some m s : truthy m = Some s -> m = Some s.
Proof.
  destruct m as [s'|]; simpl; [| discriminate].
  destruct (decide (s' = ∅)); [discriminate | congruence].
Qed.

Lemma matches_In e terms s :
  built e ->
  In s (matches e terms) <-> exists t, In t terms /\ _index e !! t = Some s.
Proof.
  intros Hb. unfold matches. rewrite <- list_elem_of_In, list_elem_of_omap. split.
  - intros (t & Ht & H). exists t. split; [now apply list_elem_of_In |].
    now apply truthy_Some.
  - intros (t & Ht & H). exists t. split; [now apply list_elem_of_In |].
    now apply truthy_entry.
Qed.

(** The positions selected by a query on a built engine. *)
Lemma built_selected e query p :
  built e ->
  p ∈ selected (matches e (Py.split query)) <->
  (exists t, In t (Py.split query) /\ is_Some (_index e !! t)) /\
  (forall t s, In t (Py.split query) -> _index e !! t = Some s -> p ∈ s).
Proof.
  intros Hb. rewrite selected_elem. split.
  - intros [Hne H]. split.
    + destruct (matches e (Py.split query)) as [|s o] eqn:E; [congruence |].
      assert (In s (matches e (Py.split query))) as Hs by (rewrite E; now left).
      apply matches_In in Hs as (t & Ht & Hs); eauto.
    + intros t s Ht Hs. apply H. apply matches_In; eauto.
  - intros [(t & Ht & [s Hs]) H]. split.
    + intros E. assert (In s (matches e (Py.split query))) as Hin
        by (apply matches_In; eauto).
      rewrite E in Hin. contradiction.
    + intros s' Hs'. apply matches_In in Hs' as (t' & Ht' & Hs'); eauto.
Qed.

Lemma built_selected_in_corpus e query p :
  built e -> p ∈ selected (matches e (Py.split query)) ->
  is_Some (_corpus e !! p).
Proof.
  intros Hb Hp. pose proof Hp as Hp'.
  apply built_selected in Hp as [(t & Ht & [s Hs]) H]; [| exact Hb].
  specialize (H t s Ht Hs). rewrite Hb in Hs.
  apply build_index_entry in Hs as [_ Hs]. apply Hs in H as (d & Hd & _). eauto.
Qed.

(** [_get_results] on a built engine returns, for each selected
    position, the document at that position. *)
Lemma built_get_results e query st :
  built e -> self st = e ->
  exists ds,
    _get_results query st =
      (Return ds,
       logged st (map IndexGet (Py.split query) ++
                  map CorpusGetItem (elements (selected (matches e (Py.split query)))))) /\
    Forall2 (fun p d => _corpus e !! p = Some d)
      (elements (selected (matches e (Py.split query)))) ds.
Proof.
  intros Hb <-. apply get_results_run.
  intros p Hp. eapply built_selected_in_corpus; eauto.
Qed.

Lemma Forall2_lookup_In (corpus : list Document) ps ds d :
  Forall2 (fun p d => corpus !! p = Some d) ps ds ->
  In d ds <-> exists p, In p ps /\ corpus !! p = Some d.
Proof.
  induction 1 as [|p d' ps ds Hp _ IH]; simpl.
  - split; [intros [] | intros (p & [] & _)].
  - rewrite IH. split.
    + intros [<- | (p' & Hp' & Hd)]; eauto.
    + intros (p' & [<- | Hp'] & Hd); [left; congruence | right; eauto].
Qed.

End InitFacts.

(** * The specification *)

(** A small corpus with a title row before the header, as in the
    scenarios of the specification. *)
Definition demo_rows : list (list string) :=
  [ ["Search corpus"];
    ["Document"; "HeaderB"];
    ["Document1"; "FindMeA1"];
    ["Document10"; "ABCDEFGHI"];
    ["Document16"; "x y z FindMeA9"];
    ["Document17"; "x y FindMeA9"];
    ["Document18"; "x FindMeA9 ab"] ].

Definition demo_fields : list string := ["document"; "headerb"].

Definition demo_corpus : list Document :=
  map (mkDocument demo_fields) (drop 2 demo_rows).

Definition demo_engine : self_t :=
  {| _corpus := demo_corpus; _index := _build_index demo_corpus |}.

Section Evaluation.

Local Open Scope py_scope.

Lemma validate_ok query :
  3 <= String.length (Py.strip query) -> _validate_query query 3 = Return tt.
Proof.
  intros H. unfold _validate_query.
  destruct (Z.ltb_spec (Z.of_nat (String.length (Py.strip query))) 3); [lia | reflexivity].
Qed.

(** [evaluate_query] once the query is accepted and [_get_results] has
    returned. *)
Lemma evaluate_query_run query sort_by t1 t2 st ds st' :
  _validate_query query 3 = Return tt ->
  _get_results (_clean_string query) st = (Return ds, st') ->
  evaluate_query query sort_by t1 t2 st =
  (match sort_by_given sort_by with
   | Some s =>
       match _sort_results (_clean_string query) ds s with
       | Return r => Return (Results_init query r (t2 - t1))
       | Raise ex => Raise ex
       end
   | None => Return (Results_init query ds (t2 - t1))
   end, st').
Proof.
  intros Hv Hg. unfold evaluate_query, bind at 1, lift at 1. rewrite Hv.
  unfold bind at 1. rewrite Hg. unfold bind at 1.
  destruct (sort_by_given sort_by) as [s|]; [| reflexivity].
  unfold lift. now destruct (_sort_results _ ds s).
Qed.

Lemma get_results_no_terms query st :
  Py.split query = [] -> _get_results query st = (Return [], st).
Proof.
  intros H. rewrite get_results_unfold. unfold bind.
  rewrite foldM_collect, H. simpl. unfold ret. now rewrite logged_nil.
Qed.

End Evaluation.

(** C8. The fuzzifications of a token [w] are, as a set, [w] itself and
    its prefixes of length 3 up to [len(w) - 1]; a token of one or two
    characters yields only itself. *)
Theorem C8_fuzzification (w : string) :
  (forall x, In x (_fuzzify w) <->
     x = w \/ exists n, 3 <= n <= String.length w - 1 /\ x = Py.slice_to n w) /\
  (1 <= String.length w < 3 -> _fuzzify w = [w]).
Proof.
  split.
  - intros x. rewrite fuzzify_In. split.
    + intros [-> | (n & Hn & ->)]; [now left |].
      destruct (decide (n = String.length w)) as [->|Hne].
      * left. now apply slice_to_all.
      * right. exists n. split; [lia | reflexivity].
    + intros [-> | (n & Hn & ->)]; [now left |].
      right. exists n. split; [lia | reflexivity].
  - intros H. unfold _fuzzify, Py.range.
    replace (String.length w + 1 - 3) with 0 by lia. reflexivity.
Qed.

Lemma C8_fuzzification_witness :
  1 <= String.length "ab" < 3 /\ _fuzzify "ab" = ["ab"].
Proof.
  split; [simpl; lia |].
  apply (proj2 (C8_fuzzification "ab")). simpl; lia.
Defined.

(** C2. A query whose trimmed length is below the minimum is rejected
    with [InvalidQueryError] and the message that names the minimum; in
    [evaluate_query], where the minimum is 3, this happens before any
    read of the index or the corpus: the state, with its log of reads, is
    the one the call started from. *)
Theorem C2_short_query_rejected (query : string) :
  (forall n : Z,
     (Z.of_nat (String.length (Py.strip query)) < n)%Z ->
     _validate_query query n =
     Raise (InvalidQueryError ("Query must be at least " +:+ pretty n +:+ " characters"))) /\
  (String.length (Py.strip query) < 3 ->
   forall sort_by t1 t2 st,
     evaluate_query query sort_by t1 t2 st =
     (Raise (InvalidQueryError "Query must be at least 3 characters"), st)).
Proof.
  split.
  - intros n H. unfold _validate_query.
    destruct (Z.ltb_spec (Z.of_nat (String.length (Py.strip query))) n); [reflexivity | lia].
  - intros H sort_by t1 t2 st. unfold evaluate_query, bind at 1, lift at 1.
    unfold _validate_query.
    destruct (Z.ltb_spec (Z.of_nat (String.length (Py.strip query))) 3); [reflexivity | lia].
Qed.

Lemma C2_short_query_rejected_witness :
  String.length (Py.strip " te ") < 3 /\
  evaluate_query " te " (Some "HeaderB") 0 1 {| self := demo_engine; reads := [] |} =
  (Raise (InvalidQueryError "Query must be at least 3 characters"),
   {| self := demo_engine; reads := [] |}).
Proof.
  split; [simpl; lia |].
  apply (proj2 (C2_short_query_rejected " te ")). simpl; lia.
Defined.

(** C9. [evaluate_query] only reads the engine: whatever the query and
    the [sort_by] argument, and whether the call returns or raises, the
    corpus and the index after the call are those before it. *)
Theorem C9_evaluation_is_read_only (query : string) (sort_by : option string)
    (t1 t2 : Z) (st : state) :
  _corpus (self (snd (evaluate_query query sort_by t1 t2 st))) = _corpus (self st) /\
  _index (self (snd (evaluate_query query sort_by t1 t2 st))) = _index (self st).
Proof.
  pose proof (evaluate_query_preserves query sort_by t1 t2 st) as H.
  split; now rewrite H.
Qed.

Section BuiltEngine.

Lemma key_shape e t s :
  built e -> _index e !! t = Some s ->
  t <> EmptyString /\ Py.all_chars nospace t = true /\ Py.all_chars clean_char t = true.
Proof.
  intros Hb H. rewrite Hb in H. apply build_index_entry in H as [Hne H].
  destruct (set_choose_L s Hne) as [p Hp].
  apply H in Hp as (d & _ & Ht). eapply doc_terms_shape; eauto.
Qed.

Lemma built_call_get_results e query :
  built e ->
  exists ds,
    fst (call (_get_results query) e) = Return ds /\
    Forall2 (fun p d => _corpus e !! p = Some d)
      (elements (selected (matches e (Py.split query)))) ds.
Proof.
  intros Hb. unfold call.
  destruct (built_get_results e query {| self := e; reads := [] |} Hb eq_refl)
    as (ds & Hrun & Hds).
  exists ds. rewrite Hrun. auto.
Qed.

(** The outcome of [evaluate_query] on a built engine, for an accepted
    query. *)
Lemma built_evaluate e query sort_by t1 t2 :
  built e -> 3 <= String.length (Py.strip query) ->
  exists ds,
    fst (call (_get_results (_clean_string query)) e) = Return ds /\
    Forall2 (fun p d => _corpus e !! p = Some d)
      (elements (selected (matches e (Py.split (_clean_string query))))) ds /\
    fst (call (evaluate_query query sort_by t1 t2) e) =
    match sort_by_given sort_by with
    | Some s =>
        match _sort_results (_clean_string query) ds s with
        | Return r => Return (Results_init query r (t2 - t1))
        | Raise ex => Raise ex
        end
    | None => Return (Results_init query ds (t2 - t1))
    end.
Proof.
  intros Hb Hlen. unfold call.
  destruct (built_get_results e (_clean_string query) {| self := e; reads := [] |}
              Hb eq_refl) as (ds & Hrun & Hds).
  exists ds. rewrite Hrun. split; [reflexivity |]. split; [exact Hds |].
  now rewrite (evaluate_query_run _ sort_by t1 t2 _ _ _ (validate_ok _ Hlen) Hrun).
Qed.

(** The documents a single term of the index selects. *)
Lemma single_term_results e t s ds :
  built e -> _index e !! t = Some s ->
  Forall2 (fun p d => _corpus e !! p = Some d)
    (elements (selected (matches e (Py.split t)))) ds ->
  forall d, In d ds <-> exists p, p ∈ s /\ _corpus e !! p = Some d.
Proof.
  intros Hb Hs Hds d.
  destruct (key_shape e t s Hb Hs) as (Hne & Hn & _).
  rewrite (split_nospace t Hne Hn) in Hds.
  unfold matches in Hds. simpl in Hds. rewrite (truthy_entry e t s Hb Hs) in Hds.
  simpl in Hds. rewrite (Forall2_lookup_In _ _ _ d Hds).
  split; intros (p & Hp & Hd); exists p; split; auto.
  - apply elem_of_elements, list_elem_of_In. exact Hp.
  - apply list_elem_of_In, elem_of_elements. exact Hp.
Qed.

End BuiltEngine.

(** C1. Prefix law. Let [w] be a whitespace token of the normalized
    concatenated field text of the record [d] of the corpus, and [n] a
    length with [3 <= n <= len(w)]. The query [w[:n]] is accepted, and
    [evaluate_query] returns a result set that contains [d]; with a
    [sort_by] argument, the result set contains [d] whenever the call
    returns. *)
Theorem C1_prefix_law (rows : list (list string)) (skiprows : option nat)
    (e : self_t) (p : nat) (d : Document) (w : string) (n : nat) (t1 t2 : Z) :
  FuzzySearchEngine rows skiprows = Return e ->
  _corpus e !! p = Some d ->
  In w (Py.split (_clean_string (Py.join " " (tuple_items d)))) ->
  3 <= n <= String.length w ->
  (exists r,
     fst (call (evaluate_query (Py.slice_to n w) None t1 t2) e) = Return r /\
     In d (data r)) /\
  (forall sort_by r,
     fst (call (evaluate_query (Py.slice_to n w) sort_by t1 t2) e) = Return r ->
     In d (data r)).
Proof.
  intros Hinit Hd Hw Hn. apply init_built in Hinit as Hb.
  set (q := Py.slice_to n w).
  assert (In q (doc_terms d)) as Hq.
  { unfold doc_terms. apply in_flat_map. exists w. split; [exact Hw |].
    apply fuzzify_In. right. exists n. auto. }
  destruct (doc_terms_shape d q Hq) as (Hne & Hns & Hc).
  assert (3 <= String.length (Py.strip q)) as Hlen.
  { rewrite (strip_nospace q Hns). unfold q. rewrite slice_to_length. lia. }
  destruct (build_index_has_entry (_corpus e) q p d Hd Hq) as (s & Hs & Hp).
  rewrite <- Hb in Hs.
  assert (forall sort_by, exists ds,
            In d ds /\
            fst (call (evaluate_query q sort_by t1 t2) e) =
            match sort_by_given sort_by with
            | Some sb =>
                match _sort_results (_clean_string q) ds sb with
                | Return r => Return (Results_init q r (t2 - t1))
                | Raise ex => Raise ex
                end
            | None => Return (Results_init q ds (t2 - t1))
            end) as Hrun.
  { intros sort_by.
    destruct (built_evaluate e q sort_by t1 t2 Hb Hlen) as (ds & _ & Hds & Hev).
    exists ds. split; [| exact Hev].
    rewrite (clean_string_id q Hc) in Hds.
    apply (single_term_results e q s ds Hb Hs Hds). eauto. }
  split.
  - destruct (Hrun None) as (ds & Hin & Hev). simpl in Hev. eauto.
  - intros sort_by r Hr. destruct (Hrun sort_by) as (ds & Hin & Hev).
    rewrite Hev in Hr. destruct (sort_by_given sort_by) as [sb|].
    + destruct (_sort_results (_clean_string q) ds sb) as [out|] eqn:Es; [| discriminate].
      injection Hr as <-. simpl.
      apply sort_results_perm in Es. eapply Permutation_in; [symmetry; exact Es | exact Hin].
    + injection Hr as <-. exact Hin.
Qed.

Lemma C1_prefix_law_witness :
  FuzzySearchEngine demo_rows (Some 1) = Return demo_engine /\
  _corpus demo_engine !! 1 = Some (mkDocument demo_fields ["Document10"; "ABCDEFGHI"]) /\
  In "abcdefghi" (Py.split (_clean_string (Py.join " " ["Document10"; "ABCDEFGHI"]))) /\
  3 <= 5 <= String.length "abcdefghi" /\
  exists r,
    fst (call (evaluate_query (Py.slice_to 5 "abcdefghi") None 0 1500000) demo_engine)
      = Return r /\
    In (mkDocument demo_fields ["Document10"; "ABCDEFGHI"]) (data r).
Proof.
  assert (FuzzySearchEngine demo_rows (Some 1) = Return demo_engine) as H1
    by (vm_compute; reflexivity).
  assert (_corpus demo_engine !! 1 = Some (mkDocument demo_fields ["Document10"; "ABCDEFGHI"]))
    as H2 by reflexivity.
  assert (In "abcdefghi" (Py.split (_clean_string (Py.join " " ["Document10"; "ABCDEFGHI"]))))
    as H3 by (vm_compute; tauto).
  assert (3 <= 5 <= String.length "abcdefghi") as H4 by (simpl; lia).
  split; [exact H1 |]. split; [exact H2 |]. split; [exact H3 |]. split; [exact H4 |].
  exact (proj1 (C1_prefix_law demo_rows (Some 1) demo_engine 1
                  (mkDocument demo_fields ["Document10"; "ABCDEFGHI"])
                  "abcdefghi" 5 0 1500000 H1 H2 H3 H4)).
Defined.

Section TwoTerms.

Lemma length_app_str (a b : string) :
  String.length (a +:+ b) = String.length a + String.length b.
Proof.
  induction a as [|c a IH]; [reflexivity |].
  rewrite app_cons. simpl. now rewrite IH.
Qed.

Lemma rstrip_app_nospace a b :
  b <> EmptyString -> Py.all_chars nospace b = true ->
  Py.rstrip (a +:+ b) = a +:+ b.
Proof.
  intros Hne Hn. induction a as [|c a IH].
  - rewrite app_nil. now apply rstrip_nospace.
  - rewrite app_cons. cbn [Py.rstrip]. rewrite IH.
    destruct (a +:+ b) eqn:E; [| reflexivity].
    destruct a; [rewrite app_nil in E; congruence | rewrite app_cons in E; discriminate].
Qed.

Lemma lstrip_head_nospace a b :
  a <> EmptyString -> Py.all_chars nospace a = true ->
  Py.lstrip (a +:+ b) = a +:+ b.
Proof.
  intros Hne Hn. destruct a as [|c a]; [congruence |].
  rewrite app_cons. simpl in Hn. apply andb_true_iff in Hn as [Hc _].
  unfold nospace in Hc. apply negb_true_iff in Hc. simpl. now rewrite Hc.
Qed.

(** The query made of two terms of the index. *)
Definition two_terms (t1 t2 : string) : string := t1 +:+ " " +:+ t2.

Lemma two_terms_split e t1 t2 s1 s2 :
  built e -> _index e !! t1 = Some s1 -> _index e !! t2 = Some s2 ->
  Py.split (two_terms t1 t2) = [t1; t2] /\
  _clean_string (two_terms t1 t2) = two_terms t1 t2 /\
  Py.strip (two_terms t1 t2) = two_terms t1 t2.
Proof.
  intros Hb H1 H2.
  destruct (key_shape e t1 s1 Hb H1) as (Hne1 & Hn1 & Hc1).
  destruct (key_shape e t2 s2 Hb H2) as (Hne2 & Hn2 & Hc2).
  unfold two_terms. split; [| split].
  - change (" " +:+ t2) with (String " "%char t2).
    rewrite split_app_space by reflexivity.
    now rewrite (split_nospace t1 Hne1 Hn1), (split_nospace t2 Hne2 Hn2).
  - rewrite !clean_string_app.
    now rewrite (clean_string_id t1 Hc1), (clean_string_id t2 Hc2).
  - unfold Py.strip. rewrite (lstrip_head_nospace t1 _ Hne1 Hn1).
    rewrite <- app_str_assoc. now apply rstrip_app_nospace.
Qed.

Lemma two_terms_results e t1 t2 s1 s2 ds :
  built e -> _index e !! t1 = Some s1 -> _index e !! t2 = Some s2 ->
  Forall2 (fun p d => _corpus e !! p = Some d)
    (elements (selected (matches e (Py.split (two_terms t1 t2))))) ds ->
  forall d, In d ds <-> exists p, (p ∈ s1 /\ p ∈ s2) /\ _corpus e !! p = Some d.
Proof.
  intros Hb H1 H2 Hds d.
  destruct (two_terms_split e t1 t2 s1 s2 Hb H1 H2) as (Hsplit & _ & _).
  rewrite Hsplit in Hds. unfold matches in Hds. simpl in Hds.
  rewrite (truthy_entry e t1 s1 Hb H1), (truthy_entry e t2 s2 Hb H2) in Hds.
  simpl in Hds. unfold set_intersection in Hds. simpl in Hds.
  rewrite (Forall2_lookup_In _ _ _ d Hds).
  split; intros (p & Hp & Hd); exists p; split; auto.
  - apply list_elem_of_In, elem_of_elements, elem_of_intersection in Hp. exact Hp.
  - apply list_elem_of_In, elem_of_elements, elem_of_intersection. exact Hp.
Qed.

(** A record selected by [t1] at one position and by [t2] at another
    is selected by both at each of them: membership in the sets of the
    index depends on the content of the record only. *)
Lemma selected_by_both e t1 t2 s1 s2 d :
  built e -> _index e !! t1 = Some s1 -> _index e !! t2 = Some s2 ->
  (exists p, (p ∈ s1 /\ p ∈ s2) /\ _corpus e !! p = Some d) <->
  (exists p, p ∈ s1 /\ _corpus e !! p = Some d) /\
  (exists p, p ∈ s2 /\ _corpus e !! p = Some d).
Proof.
  intros Hb H1 H2. rewrite Hb in H1, H2.
  apply build_index_entry in H1 as [_ H1]. apply build_index_entry in H2 as [_ H2].
  split.
  - intros (p & [Hp1 Hp2] & Hd). split; exists p; auto.
  - intros [(p1 & Hp1 & Hd1) (p2 & Hp2 & Hd2)]. exists p1. split; [| exact Hd1].
    split; [exact Hp1 |]. apply H2. exists d. split; [exact Hd1 |].
    apply H2 in Hp2 as (d' & Hd' & Ht). congruence.
Qed.

End TwoTerms.

(** C3. Multi-term intersection. For two terms [t1] and [t2] that both
    have an entry in the index, the records returned for the query made
    of [t1], a space and [t2] are, as a set, the records returned for
    [t1] alone that are also returned for [t2] alone. This holds of
    [_get_results], and of [evaluate_query] when each term alone is long
    enough to be an accepted query. *)
Theorem C3_two_term_intersection (rows : list (list string)) (skiprows : option nat)
    (e : self_t) (t1 t2 : string) (s1 s2 : gset nat) :
  FuzzySearchEngine rows skiprows = Return e ->
  _index e !! t1 = Some s1 ->
  _index e !! t2 = Some s2 ->
  (exists r12 r1 r2,
     fst (call (_get_results (two_terms t1 t2)) e) = Return r12 /\
     fst (call (_get_results t1) e) = Return r1 /\
     fst (call (_get_results t2) e) = Return r2 /\
     forall d, In d r12 <-> In d r1 /\ In d r2) /\
  (3 <= String.length t1 -> 3 <= String.length t2 ->
   forall ta tb,
   exists r12 r1 r2,
     fst (call (evaluate_query (two_terms t1 t2) None ta tb) e) = Return r12 /\
     fst (call (evaluate_query t1 None ta tb) e) = Return r1 /\
     fst (call (evaluate_query t2 None ta tb) e) = Return r2 /\
     forall d, In d (data r12) <-> In d (data r1) /\ In d (data r2)).
Proof.
  intros Hinit H1 H2. apply init_built in Hinit as Hb.
  destruct (two_terms_split e t1 t2 s1 s2 Hb H1 H2) as (Hsplit & Hclean & Hstrip).
  destruct (key_shape e t1 s1 Hb H1) as (Hne1 & Hn1 & Hc1).
  destruct (key_shape e t2 s2 Hb H2) as (Hne2 & Hn2 & Hc2).
  split.
  - destruct (built_call_get_results e (two_terms t1 t2) Hb) as (r12 & Hr12 & Hd12).
    destruct (built_call_get_results e t1 Hb) as (r1 & Hr1 & Hd1).
    destruct (built_call_get_results e t2 Hb) as (r2 & Hr2 & Hd2).
    exists r12, r1, r2. repeat (split; [assumption |]). intros d.
    rewrite (two_terms_results e t1 t2 s1 s2 r12 Hb H1 H2 Hd12 d).
    rewrite (single_term_results e t1 s1 r1 Hb H1 Hd1 d).
    rewrite (single_term_results e t2 s2 r2 Hb H2 Hd2 d).
    exact (selected_by_both e t1 t2 s1 s2 d Hb H1 H2).
  - intros Hl1 Hl2 ta tb.
    assert (3 <= String.length (Py.strip (two_terms t1 t2))) as Hl12.
    { rewrite Hstrip. unfold two_terms. rewrite !length_app_str. lia. }
    assert (3 <= String.length (Py.strip t1)) as Hl1' by now rewrite strip_nospace.
    assert (3 <= String.length (Py.strip t2)) as Hl2' by now rewrite strip_nospace.
    destruct (built_evaluate e (two_terms t1 t2) None ta tb Hb Hl12) as (r12 & _ & Hd12 & Hr12).
    destruct (built_evaluate e t1 None ta tb Hb Hl1') as (r1 & _ & Hd1 & Hr1).
    destruct (built_evaluate e t2 None ta tb Hb Hl2') as (r2 & _ & Hd2 & Hr2).
    rewrite Hclean in Hd12.
    rewrite (clean_string_id t1 Hc1) in Hd1. rewrite (clean_string_id t2 Hc2) in Hd2.
    simpl in Hr12, Hr1, Hr2.
    eexists _, _, _. repeat (split; [eassumption |]). intros d. simpl.
    rewrite (two_terms_results e t1 t2 s1 s2 r12 Hb H1 H2 Hd12 d).
    rewrite (single_term_results e t1 s1 r1 Hb H1 Hd1 d).
    rewrite (single_term_results e t2 s2 r2 Hb H2 Hd2 d).
    exact (selected_by_both e t1 t2 s1 s2 d Hb H1 H2).
Qed.

Lemma C3_two_term_intersection_witness :
  FuzzySearchEngine demo_rows (Some 1) = Return demo_engine /\
  _index demo_engine !! "findmea9" = Some {[2; 3; 4]} /\
  _index demo_engine !! "x" = Some {[2; 3; 4]} /\
  exists r12 r1 r2,
    fst (call (_get_results (two_terms "findmea9" "x")) demo_engine) = Return r12 /\
    fst (call (_get_results "findmea9") demo_engine) = Return r1 /\
    fst (call (_get_results "x") demo_engine) = Return r2 /\
    forall d, In d r12 <-> In d r1 /\ In d r2.
Proof.
  assert (FuzzySearchEngine demo_rows (Some 1) = Return demo_engine) as H1
    by (vm_compute; reflexivity).
  assert (_index demo_engine !! "findmea9" = Some {[2; 3; 4]}) as H2
    by (vm_compute; reflexivity).
  assert (_index demo_engine !! "x" = Some {[2; 3; 4]}) as H3
    by (vm_compute; reflexivity).
  split; [exact H1 |]. split; [exact H2 |]. split; [exact H3 |].
  exact (proj1 (C3_two_term_intersection demo_rows (Some 1) demo_engine
                  "findmea9" "x" {[2; 3; 4]} {[2; 3; 4]} H1 H2 H3)).
Defined.

(** C4. Unmatched terms are skipped. On every query, [_get_results]
    returns the corpus records at the positions of a set [idxs], one for
    each position; a position is in [idxs] exactly when some term of the
    query has an entry in the index and the position belongs to the set
    of every term that has one. Terms without an entry put no constraint
    on the positions, and when no term has an entry the result is empty. *)
Theorem C4_unmatched_terms_skipped (rows : list (list string)) (skiprows : option nat)
    (e : self_t) (query : string) :
  FuzzySearchEngine rows skiprows = Return e ->
  exists (results : list Document) (idxs : gset nat),
    fst (call (_get_results query) e) = Return results /\
    Forall2 (fun p d => _corpus e !! p = Some d) (elements idxs) results /\
    (forall p, p ∈ idxs <->
       (exists t, In t (Py.split query) /\ is_Some (_index e !! t)) /\
       (forall t s, In t (Py.split query) -> _index e !! t = Some s -> p ∈ s)) /\
    ((forall t, In t (Py.split query) -> _index e !! t = None) -> results = []).
Proof.
  intros Hinit. apply init_built in Hinit as Hb.
  destruct (built_call_get_results e query Hb) as (ds & Hrun & Hds).
  exists ds, (selected (matches e (Py.split query))).
  split; [exact Hrun |]. split; [exact Hds |]. split.
  - intros p. now apply built_selected.
  - intros Hnone.
    assert (selected (matches e (Py.split query)) = ∅) as E.
    { apply set_eq. intros p. rewrite built_selected by exact Hb. split; [| set_solver].
      intros [(t & Ht & [s Hs]) _]. rewrite (Hnone t Ht) in Hs. discriminate. }
    rewrite E, elements_empty in Hds. now inversion Hds.
Qed.

Lemma C4_unmatched_terms_skipped_witness :
  FuzzySearchEngine demo_rows (Some 1) = Return demo_engine /\
  exists (results : list Document) (idxs : gset nat),
    fst (call (_get_results "findmea1 notaterm") demo_engine) = Return results /\
    Forall2 (fun p d => _corpus demo_engine !! p = Some d) (elements idxs) results /\
    (forall p, p ∈ idxs <->
       (exists t, In t (Py.split "findmea1 notaterm") /\ is_Some (_index demo_engine !! t)) /\
       (forall t s, In t (Py.split "findmea1 notaterm") ->
                    _index demo_engine !! t = Some s -> p ∈ s)) /\
    ((forall t, In t (Py.split "findmea1 notaterm") -> _index demo_engine !! t = None) ->
     results = []).
Proof.
  assert (FuzzySearchEngine demo_rows (Some 1) = Return demo_engine) as H1
    by (vm_compute; reflexivity).
  split; [exact H1 |].
  exact (C4_unmatched_terms_skipped demo_rows (Some 1) demo_engine "findmea1 notaterm" H1).
Defined.

Example skip_scenario :
  fst (call (_get_results "findmea1 notaterm") demo_engine) =
  Return [mkDocument demo_fields ["Document1"; "FindMeA1"]].
Proof. vm_compute. reflexivity. Qed.

(** C5. Sort behaviour. Let [term] be the first term of the normalized
    query and let [sort_by] resolve to a field of every result. Then
    [_sort_results] returns the records whose normalized field text
    contains [term], followed by all the others in their original order.
    The first part is sorted ascending by the 0-based index of the first
    whitespace token of the field that contains [term], and records with
    equal keys keep the relative order they had before the sort. *)
Theorem C5_sort_behaviour (query : string) (results : list Document)
    (sort_by term : string) (rest : list string) :
  let name := make_python_identifier sort_by in
  Py.split query = term :: rest ->
  (forall d, In d results -> is_Some (field_value d name)) ->
  exists sorted_docs,
    _sort_results query results sort_by =
      Return (sorted_docs ++ List.filter (fun d => negb (has_term term name d)) results) /\
    Permutation sorted_docs (List.filter (has_term term name) results) /\
    StronglySorted (fun a b => sort_key term name a <= sort_key term name b) sorted_docs /\
    (forall k,
       List.filter (fun d => sort_key term name d =? k)%nat sorted_docs =
       List.filter (fun d => sort_key term name d =? k)%nat
         (List.filter (has_term term name) results)) /\
    (forall d, In d results ->
       exists v, field_value d name = Some v /\
                 has_term term name d = Py.str_in term (_clean_string v) /\
                 (has_term term name d = true ->
                  first_token_index term (_clean_string v) = Some (sort_key term name d))).
Proof.
  intros name Hq Hfield.
  assert (forall d, In d results -> is_Some (attr_text name d)) as Hattr.
  { intros d Hd. destruct (Hfield d Hd) as [v Hv].
    rewrite (field_value_attr_text d name v Hv). eauto. }
  exists (sort_by_key (sort_key term name) (List.filter (has_term term name) results)).
  split; [now apply (sort_results_ok query results sort_by term rest) |].
  split; [apply sort_by_key_perm |].
  split; [apply sort_by_key_sorted |].
  split; [intros k; apply sort_by_key_stable |].
  intros d Hd. destruct (Hfield d Hd) as [v Hv]. exists v.
  pose proof (field_value_attr_text d name v Hv) as Ht.
  split; [exact Hv |]. split; [unfold has_term; now rewrite Ht |].
  intros Hhas.
  destruct (split_token_nospace query term) as [Hne Hn]; [rewrite Hq; now left |].
  destruct (sorter_ok term name d Hne Hn Hhas) as (_ & txt & Htxt & Hidx).
  rewrite Ht in Htxt. injection Htxt as <-. exact Hidx.
Qed.

Definition doc16 : Document := mkDocument demo_fields ["Document16"; "x y z FindMeA9"].
Definition doc17 : Document := mkDocument demo_fields ["Document17"; "x y FindMeA9"].
Definition doc18 : Document := mkDocument demo_fields ["Document18"; "x FindMeA9 ab"].
Definition doc1 : Document := mkDocument demo_fields ["Document1"; "FindMeA1"].

Example sort_scenario :
  _sort_results "findmea9" [doc16; doc1; doc17; doc18] "HeaderB" =
  Return [doc18; doc17; doc16; doc1].
Proof. vm_compute. reflexivity. Qed.

Lemma C5_sort_behaviour_witness :
  Py.split "findmea9" = "findmea9" :: [] /\
  (forall d, In d [doc16; doc1; doc17; doc18] ->
             is_Some (field_value d (make_python_identifier "HeaderB"))) /\
  exists sorted_docs,
    _sort_results "findmea9" [doc16; doc1; doc17; doc18] "HeaderB" =
      Return (sorted_docs ++
              List.filter (fun d => negb (has_term "findmea9" (make_python_identifier "HeaderB") d))
                [doc16; doc1; doc17; doc18]) /\
    Permutation sorted_docs
      (List.filter (has_term "findmea9" (make_python_identifier "HeaderB"))
         [doc16; doc1; doc17; doc18]).
Proof.
  assert (Py.split "findmea9" = "findmea9" :: []) as H1 by reflexivity.
  assert (forall d, In d [doc16; doc1; doc17; doc18] ->
                    is_Some (field_value d (make_python_identifier "HeaderB"))) as H2.
  { intros d [<- | [<- | [<- | [<- | []]]]]; vm_compute; eauto. }
  split; [exact H1 |]. split; [exact H2 |].
  destruct (C5_sort_behaviour "findmea9" [doc16; doc1; doc17; doc18] "HeaderB"
              "findmea9" [] H1 H2) as (sorted_docs & Hrun & Hperm & _).
  exists sorted_docs. split; [exact Hrun | exact Hperm].
Defined.

(** C6, as the code has it. When the result set is not empty, the
    [sort_by] argument is a non-empty string and its sanitized form names
    no attribute of the first result (neither a field nor an attribute a
    record inherits from its class), [evaluate_query] raises an
    [AttributeError] whose message gives the sanitized name and the tuple
    of the valid field names. *)
Theorem C6_unknown_sort_field (e : self_t) (query sort_by : string) (t1 t2 : Z)
    (d : Document) (ds : list Document) :
  3 <= String.length (Py.strip query) ->
  fst (call (_get_results (_clean_string query)) e) = Return (d :: ds) ->
  sort_by <> EmptyString ->
  getattr d (make_python_identifier sort_by) = None ->
  fst (call (evaluate_query query (Some sort_by) t1 t2) e) =
  Raise (AttributeError ("Could not sort by '" +:+ make_python_identifier sort_by +:+
                         "'. Please use one of " +:+ Py.repr_tuple (_fields d))).
Proof.
  intros Hlen Hres Hsb Hattr. unfold call in *.
  destruct (_get_results (_clean_string query) {| self := e; reads := [] |})
    as [o st'] eqn:Hrun.
  simpl in Hres. subst o.
  rewrite (evaluate_query_run _ (Some sort_by) t1 t2 _ _ _ (validate_ok _ Hlen) Hrun).
  cbn [fst].
  assert (sort_by_given (Some sort_by) = Some sort_by) as ->
    by (destruct sort_by; [congruence | reflexivity]).
  destruct (Py.split (_clean_string query)) as [|term rest] eqn:Hq.
  { rewrite (get_results_no_terms _ _ Hq) in Hrun. discriminate. }
  unfold _sort_results. rewrite Hq. cbn [item0 obind partition_results].
  now rewrite Hattr.
Qed.

Lemma C6_unknown_sort_field_witness :
  3 <= String.length (Py.strip "FindMeA1") /\
  fst (call (_get_results (_clean_string "FindMeA1")) demo_engine) = Return (doc1 :: []) /\
  "Category Name" <> EmptyString /\
  getattr doc1 (make_python_identifier "Category Name") = None /\
  fst (call (evaluate_query "FindMeA1" (Some "Category Name") 0 1) demo_engine) =
  Raise (AttributeError
           "Could not sort by 'category_name'. Please use one of ('document', 'headerb')").
Proof.
  assert (3 <= String.length (Py.strip "FindMeA1")) as H1 by (vm_compute; lia).
  assert (fst (call (_get_results (_clean_string "FindMeA1")) demo_engine)
          = Return (doc1 :: [])) as H2 by (vm_compute; reflexivity).
  assert ("Category Name" <> EmptyString) as H3 by discriminate.
  assert (getattr doc1 (make_python_identifier "Category Name") = None) as H4
    by (vm_compute; reflexivity).
  split; [exact H1 |]. split; [exact H2 |]. split; [exact H3 |]. split; [exact H4 |].
  exact (C6_unknown_sort_field demo_engine "FindMeA1" "Category Name" 0 1 doc1 [] H1 H2 H3 H4).
Defined.

(** C6 as stated fails. The query [FindMeA1] has one result, whose fields
    are [document] and [headerb]. With the empty string as [sort_by] no
    sort takes place and the call returns; [__doc__] names no field but an
    attribute of the class, a string, and the call returns; [count] names
    no field but a method of tuples, and the [AttributeError] raised comes
    from the call of [lower] on it and does not name the fields. *)
Lemma C6_counterexample :
  fst (call (_get_results (_clean_string "FindMeA1")) demo_engine) = Return [doc1] /\
  (field_value doc1 (make_python_identifier "") = None /\
   fst (call (evaluate_query "FindMeA1" (Some "") 0 0) demo_engine) =
   Return (Results_init "FindMeA1" [doc1] 0)) /\
  (field_value doc1 (make_python_identifier "__doc__") = None /\
   fst (call (evaluate_query "FindMeA1" (Some "__doc__") 0 0) demo_engine) =
   Return (Results_init "FindMeA1" [doc1] 0)) /\
  (field_value doc1 (make_python_identifier "count") = None /\
   fst (call (evaluate_query "FindMeA1" (Some "count") 0 0) demo_engine) =
   Raise (AttributeError "'builtin_function_or_method' object has no attribute 'lower'")).
Proof. vm_compute. repeat split; reflexivity. Qed.

(** The shape of the object [to_json] returns. *)
Definition envelope (query : string) (execution_time_ms : spec_float) (data : list pyval)
    : pyval :=
  VDict [("meta", VDict [("query", VStr query);
                         ("execution_time_ms", VFloat execution_time_ms)]);
         ("data", VList data)].

(** A record as a mapping from its field names to its values, in the
    order of the fields. *)
Definition record_mapping (d : Document) : pyval :=
  VDict (combine (_fields d) (map VStr (tuple_items d))).

(** [float(ns) * 1e-6] *)
Definition ns_to_ms (ns : Z) : spec_float := Py.fmul (Py.float_of_int ns) Py.float_1e_6.

Section Envelope.

Lemma Forall2_corpus_In (corpus : list Document) ps ds d :
  Forall2 (fun p d => corpus !! p = Some d) ps ds -> In d ds -> In d corpus.
Proof.
  intros H Hd. apply (Forall2_lookup_In _ _ _ d H) in Hd as (p & _ & Hp).
  apply list_elem_of_In. eapply list_elem_of_lookup_2. exact Hp.
Qed.

Lemma to_json_envelope cls r :
  NoDup cls -> (forall d, In d (data r) -> well_formed cls d) ->
  to_json r = envelope (query r) (execution_time r) (map record_mapping (data r)).
Proof.
  intros Hnd Hwf. unfold to_json, envelope.
  replace (map document_dict (data r)) with (map record_mapping (data r));
    [reflexivity |].
  apply map_ext_in. intros d Hd. symmetry.
  apply (document_dict_well_formed cls d Hnd (Hwf d Hd)).
Qed.

End Envelope.

(** C7. Envelope schema. For a query accepted by validation,
    [evaluate_query] without [sort_by] returns, and whatever [sort_by] is,
    the object [to_json] builds from a returned result has the keys [meta]
    and [data]; [meta] holds the query as it was passed and the elapsed
    nanoseconds converted to a float of milliseconds; [data] is the list
    of the records as mappings from field names to values, in the order of
    the results, and it is the empty list when there are no results. *)
Theorem C7_envelope_schema (rows : list (list string)) (skiprows : option nat)
    (e : self_t) (query : string) (sort_by : option string) (t1 t2 : Z) :
  FuzzySearchEngine rows skiprows = Return e ->
  3 <= String.length (Py.strip query) ->
  (sort_by_given sort_by = None ->
   exists r, fst (call (evaluate_query query sort_by t1 t2) e) = Return r) /\
  (forall r,
     fst (call (evaluate_query query sort_by t1 t2) e) = Return r ->
     to_json r = envelope query (ns_to_ms (t2 - t1)) (map record_mapping (data r)) /\
     (data r = [] -> to_json r = envelope query (ns_to_ms (t2 - t1)) [])).
Proof.
  intros Hinit Hlen. apply init_built in Hinit as Hb.
  apply init_documents in Hinit as (cls & Hnd & Hwf).
  destruct (built_evaluate e query sort_by t1 t2 Hb Hlen) as (ds & _ & Hds & Hev).
  split.
  - intros Hnone. rewrite Hnone in Hev. eauto.
  - intros r Hr. rewrite Hev in Hr.
    assert (query0 : util.query r = query /\ execution_time r = ns_to_ms (t2 - t1) /\
                     Permutation (data r) ds).
    { destruct (sort_by_given sort_by) as [sb|].
      - destruct (_sort_results (_clean_string query) ds sb) as [out|] eqn:Es; [| discriminate].
        injection Hr as <-. apply sort_results_perm in Es. auto.
      - injection Hr as <-. auto. }
    destruct query0 as (Hq & Ht & Hperm).
    assert (to_json r = envelope query (ns_to_ms (t2 - t1)) (map record_mapping (data r))) as Hj.
    { rewrite <- Hq, <- Ht. apply (to_json_envelope cls r Hnd).
      intros d Hd. rewrite Forall_forall in Hwf. apply Hwf.
      apply list_elem_of_In. eapply Forall2_corpus_In; [exact Hds |].
      eapply Permutation_in; eauto. }
    split; [exact Hj |]. intros E. rewrite Hj, E. reflexivity.
Qed.

Lemma C7_envelope_schema_witness :
  FuzzySearchEngine demo_rows (Some 1) = Return demo_engine /\
  3 <= String.length (Py.strip " NotATerm ") /\
  sort_by_given None = None /\
  exists r, fst (call (evaluate_query " NotATerm " None 0 1500000) demo_engine) = Return r.
Proof.
  assert (FuzzySearchEngine demo_rows (Some 1) = Return demo_engine) as H1
    by (vm_compute; reflexivity).
  assert (3 <= String.length (Py.strip " NotATerm ")) as H2 by (vm_compute; lia).
  split; [exact H1 |]. split; [exact H2 |]. split; [reflexivity |].
  exact (proj1 (C7_envelope_schema demo_rows (Some 1) demo_engine " NotATerm " None
                  0 1500000 H1 H2) eq_refl).
Defined.

Example empty_results_scenario :
  to_json <$> match fst (call (evaluate_query " NotATerm " None 0 1500000) demo_engine) with
              | Return r => Some r
              | Raise _ => None
              end
  = Some (envelope " NotATerm " (S754_finite false 6755399441055744 (-52)) []).
Proof. vm_compute. reflexivity. Qed.

(** With a query that yields at least one term, sorting an empty result
    set returns it: the field named by [sort_by] is never looked up. *)
Lemma sort_of_no_results (query sort_by : string) (t1 t2 : Z) (st st' : state)
    (term : string) (rest : list string) :
  3 <= String.length (Py.strip query) ->
  Py.split (_clean_string query) = term :: rest ->
  _get_results (_clean_string query) st = (Return [], st') ->
  evaluate_query query (Some sort_by) t1 t2 st =
  (Return (Results_init query [] (t2 - t1)), st').
Proof.
  intros Hlen Hq Hrun.
  rewrite (evaluate_query_run _ (Some sort_by) t1 t2 _ _ _ (validate_ok _ Hlen) Hrun).
  destruct sort_by as [|c s]; [reflexivity |]. cbn [sort_by_given].
  now rewrite (sort_results_nil _ _ _ _ Hq).
Qed.

(** C10 does not hold of the code. The query [!!!] has three characters
    and is accepted; its normalized form has no term, so the result set is
    empty and, without [sort_by], the call returns an envelope with no
    data. With a [sort_by] argument, [_sort_results] takes the first term
    of a query that has none, and the call raises [IndexError]. *)
Theorem C10_sort_of_termless_query_raises (t1 t2 : Z) (st : state) :
  _validate_query "!!!" 3 = Return tt /\
  evaluate_query "!!!" None t1 t2 st = (Return (Results_init "!!!" [] (t2 - t1)), st) /\
  evaluate_query "!!!" (Some "HeaderB") t1 t2 st =
  (Raise (IndexError "list index out of range"), st).
Proof.
  assert (_validate_query "!!!" 3 = Return tt) as Hv by reflexivity.
  assert (_get_results (_clean_string "!!!") st = (Return [], st)) as Hrun
    by (apply get_results_no_terms; reflexivity).
  split; [exact Hv |]. split.
  - now rewrite (evaluate_query_run _ None t1 t2 _ _ _ Hv Hrun).
  - now rewrite (evaluate_query_run _ (Some "HeaderB") t1 t2 _ _ _ Hv Hrun).
Qed.


(** * Further properties of the code *)

(** ** Normalization: [_clean_string] *)

Section Normalization.







Lemma lstrip_all_space s : Py.all_chars Py.isspace s = true -> Py.lstrip s = EmptyString.
Proof.
  induction s as [|c r IH]; [reflexivity |].
  simpl. intros H. apply andb_true_iff in H as [Hc Hr]. rewrite Hc. auto.
Qed.

End Normalization.


(** X2. A query made of whitespace only is rejected, whatever the
    positive minimum. *)
Theorem X2_blank_query_rejected (query : string) (n : Z) :
  Py.all_chars Py.isspace query = true ->
  (1 <= n)%Z ->
  _validate_query query n =
  Raise (InvalidQueryError ("Query must be at least " +:+ pretty n +:+ " characters")).
Proof.
  intros Hs Hn. unfold _validate_query, Py.strip.
  rewrite (lstrip_all_space query Hs). cbn [Py.rstrip String.length].
  destruct (Z.ltb_spec (Z.of_nat 0) n); [reflexivity | lia].
Qed.

Lemma X2_blank_query_rejected_witness :
  Py.all_chars Py.isspace "    " = true /\ (1 <= 3)%Z /\
  _validate_query "    " 3 =
  Raise (InvalidQueryError "Query must be at least 3 characters").
Proof.
  assert (Py.all_chars Py.isspace "    " = true) as H1 by reflexivity.
  assert (1 <= 3)%Z as H2 by lia.
  split; [exact H1 |]. split; [exact H2 |].
  exact (X2_blank_query_rejected "    " 3 H1 H2).
Defined.

(** ** Field names: [make_python_identifier] *)

Section Identifiers.

(** The characters of a derived name: digits, small letters, underscore. *)
Definition ident_char (c : ascii) : bool :=
  isdigit c || Py.between 97 122 c || Ascii.eqb c underscore.

(** The name is empty or starts with a letter or an underscore. *)
Definition head_ok (s : string) : bool :=
  match s with
  | EmptyString => true
  | String c _ => isalpha_ascii c || Ascii.eqb c underscore
  end.

Definition not_capital (c : ascii) : bool := negb (Py.between 65 90 c).

Ltac by_cases_on c :=
  destruct c as [[] [] [] [] [] [] [] []]; vm_compute; try reflexivity; try discriminate.

Lemma lower_char_not_capital c : not_capital (Py.lower_char c) = true.
Proof. by_cases_on c. Qed.

Lemma valid_not_capital_ident c :
  valid_char c = true -> not_capital c = true -> ident_char c = true.
Proof. by_cases_on c. Qed.

Lemma ident_char_fixed c :
  ident_char c = true ->
  Py.lower_char c = c /\ Py.isspace c = false /\ valid_char c = true /\
  id_continue c = true.
Proof. by_cases_on c; intros _; repeat split. Qed.

Lemma lower_not_capital s : Py.all_chars not_capital (Py.lower s) = true.
Proof.
  induction s as [|c r IH]; [reflexivity |].
  simpl. now rewrite lower_char_not_capital, IH.
Qed.

Lemma lstrip_chars p s : Py.all_chars p s = true -> Py.all_chars p (Py.lstrip s) = true.
Proof.
  induction s as [|c r IH]; [reflexivity |].
  intros H. cbn [Py.lstrip]. destruct (Py.isspace c); [| exact H].
  simpl in H. apply andb_true_iff in H as [_ Hr]. auto.
Qed.

Lemma rstrip_chars p s : Py.all_chars p s = true -> Py.all_chars p (Py.rstrip s) = true.
Proof.
  induction s as [|c r IH]; [reflexivity |].
  intros H. simpl in H. apply andb_true_iff in H as [Hc Hr].
  cbn [Py.rstrip]. specialize (IH Hr).
  destruct (Py.rstrip r) as [|a b].
  - destruct (Py.isspace c); simpl; [reflexivity | now rewrite Hc].
  - cbn [Py.all_chars]. cbn [Py.all_chars] in IH. now rewrite Hc, IH.
Qed.

Lemma sub_whitespace_chars p s : forall b,
  p underscore = true -> Py.all_chars p s = true ->
  Py.all_chars p (sub_whitespace b s) = true.
Proof.
  induction s as [|c r IH]; intros b Hu H; [reflexivity |].
  simpl in H. apply andb_true_iff in H as [Hc Hr]. cbn [sub_whitespace].
  destruct (Py.isspace c); [destruct b |]; cbn [Py.all_chars];
    rewrite ?Hu, ?Hc; simpl; auto.
Qed.

Lemma remove_invalid_chars s :
  Py.all_chars not_capital s = true ->
  Py.all_chars ident_char (remove_invalid s) = true.
Proof.
  induction s as [|c r IH]; [reflexivity |].
  intros H. simpl in H. apply andb_true_iff in H as [Hc Hr]. cbn [remove_invalid].
  destruct (valid_char c) eqn:E; [| auto].
  cbn [Py.all_chars]. now rewrite (valid_not_capital_ident c E Hc), IH.
Qed.

Lemma remove_leading_chars p s :
  Py.all_chars p s = true -> Py.all_chars p (remove_leading s) = true.
Proof.
  induction s as [|c r IH]; [reflexivity |].
  intros H. cbn [remove_leading]. destruct (isalpha_ascii c || Ascii.eqb c underscore);
    [exact H |].
  simpl in H. apply andb_true_iff in H as [_ Hr]. auto.
Qed.

Lemma remove_leading_head s : head_ok (remove_leading s) = true.
Proof.
  induction s as [|c r IH]; [reflexivity |].
  cbn [remove_leading]. destruct (isalpha_ascii c || Ascii.eqb c underscore) eqn:E;
    [exact E | exact IH].
Qed.

(** No keyword holds a digit, so a string that ends with [_1] is none. *)
Lemma keyword_no_digit s :
  in_list s kwlist = true -> Py.all_chars (fun c => negb (isdigit c)) s = true.
Proof.
  intros H. apply in_list_In in H.
  assert (forallb (Py.all_chars (fun c => negb (isdigit c))) kwlist = true) as Hall
    by reflexivity.
  rewrite forallb_forall in Hall. now apply Hall.
Qed.

Lemma suffixed_not_keyword s : in_list (s +:+ "_1") kwlist = false.
Proof.
  destruct (in_list (s +:+ "_1") kwlist) eqn:E; [| reflexivity].
  apply keyword_no_digit in E. rewrite all_chars_app in E.
  apply andb_true_iff in E as [_ E]. discriminate.
Qed.

Lemma avoid_keywords_cases fuel s :
  avoid_keywords (S (S fuel)) s = if in_list s kwlist then s +:+ "_1" else s.
Proof.
  cbn [avoid_keywords]. destruct (in_list s kwlist); [| reflexivity].
  now rewrite suffixed_not_keyword.
Qed.

Lemma head_ok_app s t : s <> EmptyString -> head_ok s = true -> head_ok (s +:+ t) = true.
Proof. destruct s; [congruence | now rewrite app_cons]. Qed.

Lemma sub_whitespace_nospace s :
  Py.all_chars nospace s = true -> sub_whitespace false s = s.
Proof.
  induction s as [|c r IH]; [reflexivity |].
  intros H. simpl in H. apply andb_true_iff in H as [Hc Hr].
  unfold nospace in Hc. apply negb_true_iff in Hc.
  cbn [sub_whitespace]. rewrite Hc. now rewrite IH.
Qed.

Lemma remove_invalid_valid s :
  Py.all_chars valid_char s = true -> remove_invalid s = s.
Proof.
  induction s as [|c r IH]; [reflexivity |].
  intros H. simpl in H. apply andb_true_iff in H as [Hc Hr].
  cbn [remove_invalid]. rewrite Hc. now rewrite IH.
Qed.

Lemma remove_leading_head_ok s : head_ok s = true -> remove_leading s = s.
Proof. destruct s as [|c r]; [reflexivity |]. simpl. now intros ->. Qed.

Lemma lower_fixed s :
  Py.all_chars (fun c => Ascii.eqb (Py.lower_char c) c) s = true -> Py.lower s = s.
Proof.
  induction s as [|c r IH]; [reflexivity |].
  intros H. simpl in H. apply andb_true_iff in H as [Hc Hr].
  apply Ascii.eqb_eq in Hc. simpl. now rewrite Hc, IH.
Qed.

Lemma all_chars_impl (p q : ascii -> bool) s :
  (forall c, p c = true -> q c = true) ->
  Py.all_chars p s = true -> Py.all_chars q s = true.
Proof.
  intros Hpq. induction s as [|c r IH]; [reflexivity |].
  simpl. intros H. apply andb_true_iff in H as [Hc Hr].
  now rewrite (Hpq c Hc), IH.
Qed.

(** A string that has the shape of a derived name is left as it is. *)
Lemma make_python_identifier_fixed s :
  Py.all_chars ident_char s = true -> head_ok s = true -> in_list s kwlist = false ->
  make_python_identifier s = s.
Proof.
  intros Hc Hh Hk. unfold make_python_identifier.
  rewrite lower_fixed.
  2:{ eapply all_chars_impl; [| exact Hc]. intros c H.
      apply ident_char_fixed in H as (-> & _). apply Ascii.eqb_refl. }
  assert (Py.all_chars nospace s = true) as Hn.
  { eapply all_chars_impl; [| exact Hc]. intros c H.
    apply ident_char_fixed in H as (_ & H & _). unfold nospace. now rewrite H. }
  rewrite (strip_nospace s Hn), (sub_whitespace_nospace s Hn).
  rewrite remove_invalid_valid.
  2:{ eapply all_chars_impl; [| exact Hc]. intros c H.
      now apply ident_char_fixed in H as (_ & _ & H & _). }
  rewrite (remove_leading_head_ok s Hh).
  cbn [length kwlist]. rewrite avoid_keywords_cases. now rewrite Hk.
Qed.

Lemma make_python_identifier_shape s :
  Py.all_chars ident_char (make_python_identifier s) = true /\
  head_ok (make_python_identifier s) = true /\
  in_list (make_python_identifier s) kwlist = false.
Proof.
  unfold make_python_identifier. cbn [length kwlist]. rewrite avoid_keywords_cases.
  set (o := remove_leading _).
  assert (Py.all_chars ident_char o = true) as Hc.
  { unfold o. apply remove_leading_chars, remove_invalid_chars.
    apply sub_whitespace_chars; [reflexivity |].
    unfold Py.strip. apply rstrip_chars, lstrip_chars, lower_not_capital. }
  assert (head_ok o = true) as Hh by apply remove_leading_head.
  destruct (in_list o kwlist) eqn:Hk.
  - split; [rewrite all_chars_app; now rewrite Hc |].
    split; [| apply suffixed_not_keyword].
    apply head_ok_app; [| exact Hh].
    intros ->. discriminate.
  - auto.
Qed.

End Identifiers.

Lemma derived_name_isidentifier (s : string) :
  make_python_identifier s <> EmptyString ->
  isidentifier (make_python_identifier s) = true.
Proof.
  destruct (make_python_identifier_shape s) as (Hc & Hh & Hk).
  destruct (make_python_identifier s) as [|c r]; [congruence |]. intros _.
  simpl in Hc, Hh. apply andb_true_iff in Hc as [Hc Hr].
  unfold isidentifier. apply andb_true_iff. split.
  - unfold id_start. now rewrite Hh.
  - eapply all_chars_impl; [| exact Hr]. intros a Ha.
    now apply ident_char_fixed in Ha as (_ & _ & _ & Ha).
Qed.

(** X3. A derived field name holds only digits, small letters and
    underscores, does not start with a digit, and is no Python keyword;
    unless it is empty, it is a valid identifier. *)
Theorem X3_identifier_shape (s : string) :
  Py.all_chars ident_char (make_python_identifier s) = true /\
  head_ok (make_python_identifier s) = true /\
  in_list (make_python_identifier s) kwlist = false /\
  (make_python_identifier s <> EmptyString ->
   isidentifier (make_python_identifier s) = true).
Proof.
  destruct (make_python_identifier_shape s) as (Hc & Hh & Hk).
  repeat (split; [assumption |]).
  apply derived_name_isidentifier.
Qed.

Lemma X3_identifier_shape_witness :
  make_python_identifier " 2nd Class! " <> EmptyString /\
  isidentifier (make_python_identifier " 2nd Class! ") = true.
Proof.
  assert (make_python_identifier " 2nd Class! " <> EmptyString) as H by (vm_compute; discriminate).
  split; [exact H |].
  exact (proj2 (proj2 (proj2 (X3_identifier_shape " 2nd Class! "))) H).
Defined.

Lemma derived_name_fixed (s : string) :
  make_python_identifier (make_python_identifier s) = make_python_identifier s.
Proof.
  destruct (make_python_identifier_shape s) as (Hc & Hh & Hk).
  now apply make_python_identifier_fixed.
Qed.

(** X4. Sanitization is idempotent: a derived field name is its own
    derived name, so a field can be named in [sort_by] by its header text
    or by the name derived from it. *)
Theorem X4_identifier_idempotent (s : string) :
  make_python_identifier (make_python_identifier s) = make_python_identifier s.
Proof. apply derived_name_fixed. Qed.

(** ** Loading the corpus: [_load_corpus] *)

Section Loader.

(** The number of leading rows that are skipped. *)
Definition skipped (skiprows : option nat) : nat :=
  match skiprows with Some n => n | None => 0 end.

Lemma drop_cons_inv {A} (l : list A) : forall n x r,
  drop n l = x :: r -> l !! n = Some x /\ drop (S n) l = r.
Proof.
  induction l as [|a l IH]; intros [|n] x r H; simpl in *; try discriminate.
  - injection H as <- <-. split; [reflexivity | now rewrite drop_0].
  - apply IH in H. exact H.
Qed.

Lemma drop_lookup {A} (l : list A) : forall n x,
  l !! n = Some x -> drop n l = x :: drop (S n) l /\ n < length l.
Proof.
  induction l as [|a l IH]; intros [|n] x H; simpl in *; try discriminate.
  - injection H as <-. split; [now rewrite drop_0 | lia].
  - apply IH in H as [H1 H2]. split; [exact H1 | lia].
Qed.

Lemma load_corpus_unfold rows skiprows header :
  rows !! skipped skiprows = Some header ->
  _load_corpus rows skiprows =
  obind (namedtuple (map make_python_identifier header)) (fun cls =>
    omapM (Document_new cls) (drop (S (skipped skiprows)) rows)).
Proof.
  intros H. apply drop_lookup in H as [Hd Hl]. unfold _load_corpus.
  fold (skipped skiprows).
  destruct (Nat.ltb_spec (length rows) (skipped skiprows)); [lia |].
  now rewrite Hd.
Qed.

Lemma omapM_Document_new cls rest : forall corpus,
  omapM (Document_new cls) rest = Return corpus ->
  corpus = map (mkDocument cls) rest /\
  Forall (fun row => length row = length cls) rest.
Proof.
  induction rest as [|row r IH]; intros corpus H.
  - injection H as <-. split; [reflexivity | constructor].
  - cbn [omapM] in H. unfold Document_new at 1 in H.
    destruct (length row =? length cls)%nat eqn:E; [| discriminate].
    cbn [obind] in H.
    destruct (omapM (Document_new cls) r) as [ds|] eqn:Er; [| discriminate].
    injection H as <-. destruct (IH ds eq_refl) as [-> Hall].
    apply Nat.eqb_eq in E. split; [reflexivity | now constructor].
Qed.

Lemma omapM_Document_new_ok cls rest :
  Forall (fun row => length row = length cls) rest ->
  omapM (Document_new cls) rest = Return (map (mkDocument cls) rest).
Proof.
  induction 1 as [|row r Hrow _ IH]; [reflexivity |].
  cbn [omapM map]. unfold Document_new at 1.
  rewrite (proj2 (Nat.eqb_eq _ _) Hrow). cbn [obind]. now rewrite IH.
Qed.

Lemma omapM_Document_new_mismatch cls rest :
  (exists row, In row rest /\ length row <> length cls) ->
  omapM (Document_new cls) rest = Raise TypeError.
Proof.
  induction rest as [|row r IH]; intros (bad & Hin & Hbad); [contradiction |].
  cbn [omapM]. unfold Document_new at 1.
  destruct (length row =? length cls)%nat eqn:E; [| reflexivity].
  cbn [obind]. apply Nat.eqb_eq in E.
  destruct Hin as [-> | Hin]; [contradiction |].
  rewrite IH; [reflexivity | eauto].
Qed.

Lemma check_fields_ok names : forall seen,
  NoDup names ->
  (forall n, In n names -> ~ In n seen /\ startswith_underscore n = false) ->
  check_fields seen names = true.
Proof.
  induction names as [|x r IH]; intros seen Hnd H; [reflexivity |].
  cbn [check_fields]. apply NoDup_cons in Hnd as [Hx Hr].
  destruct (H x (or_introl eq_refl)) as [Hs Hu]. rewrite Hu. cbn [negb andb].
  destruct (in_list x seen) eqn:E; [apply in_list_In in E; contradiction |].
  cbn [negb andb]. apply IH; [exact Hr |].
  intros n Hn. destruct (H n (or_intror Hn)) as [Hns Hnu]. split; [| exact Hnu].
  intros [<- | Hin]; [| contradiction].
  apply Hx. now apply list_elem_of_In.
Qed.

Lemma check_fields_underscore names : forall seen n,
  check_fields seen names = true -> In n names -> startswith_underscore n = false.
Proof.
  induction names as [|x r IH]; intros seen n H Hn; [contradiction |].
  cbn [check_fields] in H. apply andb_true_iff in H as [H Hr].
  apply andb_true_iff in H as [Hu _]. apply negb_true_iff in Hu.
  destruct Hn as [<- | Hn]; [exact Hu | eauto].
Qed.

(** The header check of [namedtuple] on derived names. *)
Definition header_ok (names : list string) : Prop :=
  NoDup names /\
  forall n, In n names -> n <> EmptyString /\ startswith_underscore n = false.

Lemma namedtuple_derived header :
  let names := map make_python_identifier header in
  (header_ok names -> namedtuple names = Return names) /\
  (~ header_ok names -> namedtuple names = Raise ValueError).
Proof.
  intros names.
  assert (forall n, In n names -> n <> EmptyString ->
            isidentifier n && negb (in_list n kwlist) = true) as Hid.
  { intros n Hn Hne. unfold names in Hn. apply in_map_iff in Hn as (f & <- & _).
    destruct (make_python_identifier_shape f) as (_ & _ & Hk).
    now rewrite (derived_name_isidentifier f Hne), Hk. }
  split.
  - intros [Hnd H]. unfold namedtuple.
    assert (forallb (fun name => isidentifier name && negb (in_list name kwlist)) names = true)
      as ->.
    { apply forallb_forall. intros n Hn. apply Hid; [exact Hn | now apply H]. }
    rewrite check_fields_ok; [reflexivity | exact Hnd |].
    intros n Hn. split; [intros [] | now apply H].
  - intros Hbad. unfold namedtuple.
    destruct (forallb _ names && check_fields [] names) eqn:E; [| reflexivity].
    exfalso. apply Hbad. apply andb_true_iff in E as [Ef Ec].
    split; [now apply check_fields_NoDup in Ec |].
    intros n Hn. split; [| eapply check_fields_underscore; eauto].
    rewrite forallb_forall in Ef. specialize (Ef n Hn).
    intros ->. discriminate.
Qed.

End Loader.

Lemma load_corpus_inv (rows : list (list string)) (skiprows : option nat)
    (corpus : list Document) :
  _load_corpus rows skiprows = Return corpus ->
  exists header,
    rows !! skipped skiprows = Some header /\
    corpus = map (mkDocument (map make_python_identifier header))
               (drop (S (skipped skiprows)) rows) /\
    NoDup (map make_python_identifier header) /\
    Forall (fun row => length row = length header) (drop (S (skipped skiprows)) rows).
Proof.
  intros H. unfold _load_corpus in H. fold (skipped skiprows) in H.
  destruct (length rows <? skipped skiprows)%nat; [discriminate |].
  destruct (drop (skipped skiprows) rows) as [|header rest] eqn:E; [discriminate |].
  apply drop_cons_inv in E as [Hh Hr]. exists header. split; [exact Hh |].
  destruct (namedtuple (map make_python_identifier header)) as [cls|] eqn:En;
    [| discriminate].
  apply namedtuple_NoDup in En as [-> Hnd]. cbn [obind] in H.
  apply omapM_Document_new in H as [-> Hall]. rewrite Hr.
  split; [reflexivity |]. split; [exact Hnd |].
  eapply Forall_impl; [exact Hall |]. intros row Hrow. simpl in Hrow.
  now rewrite length_map in Hrow.
Qed.

(** X5. When [_load_corpus] returns, the row after the skipped ones is
    the header, the corpus holds one document for each later row, in the
    order of the file, with the cells of the row as its values and the
    names derived from the header as its fields; these names are distinct
    and every row has as many cells as the header. *)
Theorem X5_load_corpus_documents (rows : list (list string)) (skiprows : option nat)
    (corpus : list Document) :
  _load_corpus rows skiprows = Return corpus ->
  exists header,
    rows !! skipped skiprows = Some header /\
    corpus = map (mkDocument (map make_python_identifier header))
               (drop (S (skipped skiprows)) rows) /\
    NoDup (map make_python_identifier header) /\
    Forall (fun row => length row = length header) (drop (S (skipped skiprows)) rows).
Proof. apply load_corpus_inv. Qed.

Lemma X5_load_corpus_documents_witness :
  _load_corpus demo_rows (Some 1) = Return demo_corpus /\
  exists header,
    demo_rows !! skipped (Some 1) = Some header /\
    demo_corpus = map (mkDocument (map make_python_identifier header))
                    (drop (S (skipped (Some 1))) demo_rows) /\
    NoDup (map make_python_identifier header) /\
    Forall (fun row => length row = length header) (drop (S (skipped (Some 1))) demo_rows).
Proof.
  assert (_load_corpus demo_rows (Some 1) = Return demo_corpus) as H by reflexivity.
  split; [exact H |].
  exact (X5_load_corpus_documents demo_rows (Some 1) demo_corpus H).
Defined.

(** X6. A file with no row left for the header after the skipped rows
    (an empty file, or [skiprows] at least the number of rows) makes
    [_load_corpus] raise [StopIteration]. *)
Theorem X6_load_corpus_no_header (rows : list (list string)) (skiprows : option nat) :
  length rows <= skipped skiprows ->
  _load_corpus rows skiprows = Raise StopIteration.
Proof.
  intros H. unfold _load_corpus. fold (skipped skiprows).
  destruct (length rows <? skipped skiprows)%nat; [reflexivity |].
  now rewrite drop_ge.
Qed.

Lemma X6_load_corpus_no_header_witness :
  length [["Search corpus"]] <= skipped (Some 1) /\
  _load_corpus [["Search corpus"]] (Some 1) = Raise StopIteration.
Proof.
  assert (length [["Search corpus"]] <= skipped (Some 1)) as H by (simpl; lia).
  split; [exact H |].
  exact (X6_load_corpus_no_header [["Search corpus"]] (Some 1) H).
Defined.

(** X7. When two cells of the header derive the same field name, or a
    cell derives an empty name or one that starts with an underscore,
    [_load_corpus] raises [ValueError], whatever the data rows. *)
Theorem X7_load_corpus_bad_header (rows : list (list string)) (skiprows : option nat)
    (header : list string) :
  rows !! skipped skiprows = Some header ->
  ~ header_ok (map make_python_identifier header) ->
  _load_corpus rows skiprows = Raise ValueError.
Proof.
  intros Hh Hbad. rewrite (load_corpus_unfold rows skiprows header Hh).
  now rewrite (proj2 (namedtuple_derived header) Hbad).
Qed.

Lemma X7_load_corpus_bad_header_witness :
  [["Name"; "name "]; ["a"; "b"]] !! skipped None = Some ["Name"; "name "] /\
  ~ header_ok (map make_python_identifier ["Name"; "name "]) /\
  _load_corpus [["Name"; "name "]; ["a"; "b"]] None = Raise ValueError.
Proof.
  assert ([["Name"; "name "]; ["a"; "b"]] !! skipped None = Some ["Name"; "name "]) as H1
    by reflexivity.
  assert (~ header_ok (map make_python_identifier ["Name"; "name "])) as H2.
  { intros [Hnd _]. vm_compute in Hnd. apply NoDup_cons in Hnd as [Hx _].
    apply Hx. left. }
  split; [exact H1 |]. split; [exact H2 |].
  exact (X7_load_corpus_bad_header _ None _ H1 H2).
Defined.

(** X8. With an accepted header, [_load_corpus] returns exactly when
    every data row has as many cells as the header, and raises [TypeError]
    as soon as one row has not. *)
Theorem X8_load_corpus_column_count (rows : list (list string)) (skiprows : option nat)
    (header : list string) :
  rows !! skipped skiprows = Some header ->
  header_ok (map make_python_identifier header) ->
  (Forall (fun row => length row = length header) (drop (S (skipped skiprows)) rows) ->
   _load_corpus rows skiprows =
   Return (map (mkDocument (map make_python_identifier header))
             (drop (S (skipped skiprows)) rows))) /\
  ((exists row, In row (drop (S (skipped skiprows)) rows) /\ length row <> length header) ->
   _load_corpus rows skiprows = Raise TypeError).
Proof.
  intros Hh Hok. rewrite (load_corpus_unfold rows skiprows header Hh).
  rewrite (proj1 (namedtuple_derived header) Hok). cbn [obind]. split.
  - intros Hall. apply omapM_Document_new_ok.
    eapply Forall_impl; [exact Hall |]. intros row Hrow. simpl.
    now rewrite length_map.
  - intros (row & Hin & Hlen). apply omapM_Document_new_mismatch.
    exists row. split; [exact Hin |]. now rewrite length_map.
Qed.

Lemma X8_load_corpus_column_count_witness :
  [["Name"; "Title"]; ["a"; "b"]; ["c"]] !! skipped None = Some ["Name"; "Title"] /\
  header_ok (map make_python_identifier ["Name"; "Title"]) /\
  (exists row, In row (drop (S (skipped None)) [["Name"; "Title"]; ["a"; "b"]; ["c"]]) /\
               length row <> length ["Name"; "Title"]) /\
  _load_corpus [["Name"; "Title"]; ["a"; "b"]; ["c"]] None = Raise TypeError.
Proof.
  assert ([["Name"; "Title"]; ["a"; "b"]; ["c"]] !! skipped None = Some ["Name"; "Title"])
    as H1 by reflexivity.
  assert (header_ok (map make_python_identifier ["Name"; "Title"])) as H2.
  { vm_compute. split.
    - repeat constructor; set_solver.
    - intros n [<- | [<- | []]]; split; (discriminate || reflexivity). }
  assert (exists row, In row (drop (S (skipped None)) [["Name"; "Title"]; ["a"; "b"]; ["c"]]) /\
                      length row <> length ["Name"; "Title"]) as H3.
  { exists ["c"]. split; [simpl; tauto | simpl; lia]. }
  split; [exact H1 |]. split; [exact H2 |]. split; [exact H3 |].
  exact (proj2 (X8_load_corpus_column_count _ None _ H1 H2) H3).
Defined.

(** ** The index: [_build_index] *)

(** X9. The invariant of the index. A position is filed under a term
    exactly when the term is a fuzzification of a token of the normalized
    text of the record at that position; no entry of the index is an
    empty set, and every position of an entry is a position of the
    corpus. *)
Theorem X9_index_invariant (corpus : list Document) (t : string) :
  (forall p,
     p ∈ default ∅ (_build_index corpus !! t) <->
     exists d w,
       corpus !! p = Some d /\
       In w (Py.split (_clean_string (Py.join " " (tuple_items d)))) /\
       In t (_fuzzify w)) /\
  (forall s, _build_index corpus !! t = Some s ->
             s <> ∅ /\ forall p, p ∈ s -> p < length corpus).
Proof.
  split.
  - intros p. fold (lookup_set (_build_index corpus) t). rewrite build_index_lookup.
    unfold doc_terms. split.
    + intros (d & Hd & Ht). apply in_flat_map in Ht as (w & Hw & Ht). eauto.
    + intros (d & w & Hd & Hw & Ht). exists d. split; [exact Hd |].
      apply in_flat_map. eauto.
  - intros s Hs. apply build_index_entry in Hs as [Hne Hs]. split; [exact Hne |].
    intros p Hp. apply Hs in Hp as (d & Hd & _). eapply lookup_lt_Some; eauto.
Qed.

Lemma X9_index_invariant_witness :
  _build_index demo_corpus !! "abcd" = Some {[1]} /\
  ({[1]} : gset nat) <> ∅ /\ forall p, p ∈ ({[1]} : gset nat) -> p < length demo_corpus.
Proof.
  assert (_build_index demo_corpus !! "abcd" = Some {[1]}) as H by (vm_compute; reflexivity).
  split; [exact H |].
  exact (proj2 (X9_index_invariant demo_corpus "abcd") {[1]} H).
Defined.



(** ** Queries *)

Section Queries.



Lemma clean_space : _clean_string " " = " ".
Proof. reflexivity. Qed.

(** The tokens of one field are tokens of the text of the record. *)
Lemma field_tokens items : forall v w,
  In v items -> In w (Py.split (_clean_string v)) ->
  In w (Py.split (_clean_string (Py.join " " items))).
Proof.
  induction items as [|x r IH]; intros v w Hv Hw; [contradiction |].
  destruct r as [|y r].
  - destruct Hv as [<- | []]. exact Hw.
  - change (Py.join " " (x :: y :: r)) with (x +:+ " " +:+ Py.join " " (y :: r)).
    rewrite !clean_string_app, clean_space.
    change (" " +:+ _clean_string (Py.join " " (y :: r)))
      with (String " "%char (_clean_string (Py.join " " (y :: r)))).
    rewrite split_app_space by reflexivity. apply in_app_iff.
    destruct Hv as [<- | Hv]; [now left | right; eauto].
Qed.

(** A term under which a record is filed, submitted as a query of three
    characters or more, finds the record. *)
Lemma indexed_term_found e p d q t1 t2 :
  built e -> _corpus e !! p = Some d -> In q (doc_terms d) ->
  3 <= String.length q ->
  exists r, fst (call (evaluate_query q None t1 t2) e) = Return r /\ In d (data r).
Proof.
  intros Hb Hd Hq Hlen.
  destruct (doc_terms_shape d q Hq) as (Hne & Hns & Hc).
  assert (3 <= String.length (Py.strip q)) as Hlen' by now rewrite strip_nospace.
  destruct (build_index_has_entry (_corpus e) q p d Hd Hq) as (s & Hs & Hp).
  rewrite <- Hb in Hs.
  destruct (built_evaluate e q None t1 t2 Hb Hlen') as (ds & _ & Hds & Hev).
  rewrite (clean_string_id q Hc) in Hds. simpl in Hev.
  exists (Results_init q ds (t2 - t1)). split; [exact Hev |]. simpl.
  apply (single_term_results e q s ds Hb Hs Hds). eauto.
Qed.


End Queries.



(** X12. Every field is searchable. A token of three characters or
    more of the normalized text of any field of a record, submitted as a
    query, returns a result set that holds the record. *)
Theorem X12_every_field_searchable (rows : list (list string)) (skiprows : option nat)
    (e : self_t) (p : nat) (d : Document) (v w : string) (t1 t2 : Z) :
  FuzzySearchEngine rows skiprows = Return e ->
  _corpus e !! p = Some d ->
  In v (tuple_items d) ->
  In w (Py.split (_clean_string v)) ->
  3 <= String.length w ->
  exists r, fst (call (evaluate_query w None t1 t2) e) = Return r /\ In d (data r).
Proof.
  intros Hinit Hd Hv Hw Hlen. apply init_built in Hinit as Hb.
  apply (indexed_term_found e p d w t1 t2 Hb Hd); [| exact Hlen].
  unfold doc_terms. apply in_flat_map. exists w.
  split; [eapply field_tokens; eauto |].
  apply fuzzify_In. now left.
Qed.

Lemma X12_every_field_searchable_witness :
  FuzzySearchEngine demo_rows (Some 1) = Return demo_engine /\
  _corpus demo_engine !! 1 = Some (mkDocument demo_fields ["Document10"; "ABCDEFGHI"]) /\
  In "Document10" ["Document10"; "ABCDEFGHI"] /\
  In "document10" (Py.split (_clean_string "Document10")) /\
  3 <= String.length "document10" /\
  exists r, fst (call (evaluate_query "document10" None 0 1) demo_engine) = Return r /\
            In (mkDocument demo_fields ["Document10"; "ABCDEFGHI"]) (data r).
Proof.
  assert (FuzzySearchEngine demo_rows (Some 1) = Return demo_engine) as H1
    by (vm_compute; reflexivity).
  assert (_corpus demo_engine !! 1 = Some (mkDocument demo_fields ["Document10"; "ABCDEFGHI"]))
    as H2 by reflexivity.
  assert (In "Document10" ["Document10"; "ABCDEFGHI"]) as H3 by (left; reflexivity).
  assert (In "document10" (Py.split (_clean_string "Document10"))) as H4
    by (vm_compute; tauto).
  assert (3 <= String.length "document10") as H5 by (simpl; lia).
  split; [exact H1 |]. split; [exact H2 |]. split; [exact H3 |]. split; [exact H4 |].
  split; [exact H5 |].
  exact (X12_every_field_searchable demo_rows (Some 1) demo_engine 1
           (mkDocument demo_fields ["Document10"; "ABCDEFGHI"])
           "Document10" "document10" 0 1 H1 H2 H3 H4 H5).
Defined.



(** ** Sorting: [_sort_results] *)

Section SortOutcome.

Lemma partition_results_raise term name results : forall to_sort the_rest ex,
  partition_results term name results to_sort the_rest = Raise ex ->
  exists msg, ex = AttributeError msg.
Proof.
  induction results as [|d r IH]; intros to_sort the_rest ex H; [discriminate |].
  cbn [partition_results] in H.
  destruct (getattr d name) as [[text|ty]|].
  - cbn [obind clean_attr] in H.
    destruct (Py.str_in term (_clean_string text)); eapply IH; eauto.
  - cbn [obind clean_attr] in H. injection H as <-. eauto.
  - injection H as <-. eauto.
Qed.

Lemma sort_results_returns_inv query results sort_by out :
  _sort_results query results sort_by = Return out ->
  Py.split query <> [] /\
  forall d, In d results -> is_Some (attr_text (make_python_identifier sort_by) d).
Proof.
  intros H. unfold _sort_results in H.
  destruct (Py.split query) as [|term rest]; [discriminate |].
  split; [discriminate |]. cbn [item0 obind] in H.
  destruct (partition_results term (make_python_identifier sort_by) results [] [])
    as [o|] eqn:E; [| discriminate].
  eapply partition_results_inv; eauto.
Qed.

Lemma sort_results_raise query results sort_by ex :
  _sort_results query results sort_by = Raise ex ->
  (Py.split query = [] /\ ex = IndexError "list index out of range") \/
  (Py.split query <> [] /\ exists msg, ex = AttributeError msg).
Proof.
  intros H. destruct (Py.split query) as [|term rest] eqn:Hq.
  - left. unfold _sort_results in H. rewrite Hq in H. cbn in H. injection H as <-. auto.
  - right. split; [discriminate |].
    destruct (partition_results term (make_python_identifier sort_by) results [] [])
      as [o|ex'] eqn:E.
    + assert (forall d, In d results ->
                is_Some (attr_text (make_python_identifier sort_by) d)) as Hattr
        by (eapply partition_results_inv; eauto).
      rewrite (sort_results_ok _ _ _ _ _ Hq Hattr) in H. discriminate.
    + unfold _sort_results in H. rewrite Hq in H. cbn [item0 obind] in H.
      rewrite E in H. cbn [obind] in H. injection H as <-.
      eapply partition_results_raise; eauto.
Qed.

Lemma assoc_combine_In {V} (k : string) (ks : list string) : forall (vs : list V),
  In k ks -> length ks <= length vs -> is_Some (assoc k (combine ks vs)).
Proof.
  induction ks as [|x r IH]; intros vs Hk Hl; [contradiction |].
  destruct vs as [|v vs]; [simpl in Hl; lia |].
  cbn [combine assoc]. destruct (String.eqb k x) eqn:E; [eauto |].
  apply IH; [| simpl in Hl; lia].
  destruct Hk as [-> | Hk]; [rewrite String.eqb_refl in E; discriminate | exact Hk].
Qed.

Lemma assoc_combine_lookup {V} (ks : list string) : forall (vs : list V) i k v,
  NoDup ks -> ks !! i = Some k -> vs !! i = Some v ->
  assoc k (combine ks vs) = Some v.
Proof.
  induction ks as [|x r IH]; intros vs i k v Hnd Hk Hv; [discriminate |].
  destruct vs as [|y vs]; [discriminate |].
  apply NoDup_cons in Hnd as [Hx Hr]. cbn [combine assoc].
  destruct i as [|i]; simpl in Hk, Hv.
  - injection Hk as ->. injection Hv as ->. now rewrite String.eqb_refl.
  - destruct (String.eqb k x) eqn:E.
    + apply String.eqb_eq in E. subst. exfalso. apply Hx.
      eapply list_elem_of_lookup_2; eauto.
    + eapply IH; eauto.
Qed.

Lemma init_load rows skiprows e :
  FuzzySearchEngine rows skiprows = Return e ->
  _load_corpus rows skiprows = Return (_corpus e).
Proof.
  unfold FuzzySearchEngine.
  destruct (_load_corpus rows skiprows) as [corpus|]; [| discriminate].
  cbn [obind]. now intros [= <-].
Qed.

End SortOutcome.

(** X14. Sorting neither adds nor drops a record: whenever
    [_sort_results] returns, its result is a rearrangement of the results
    it was given. *)
Theorem X14_sort_is_permutation (query : string) (results : list Document)
    (sort_by : string) (out : list Document) :
  _sort_results query results sort_by = Return out -> Permutation out results.
Proof. apply sort_results_perm. Qed.

Lemma X14_sort_is_permutation_witness :
  _sort_results "findmea9" [doc16; doc1; doc17; doc18] "HeaderB" =
    Return [doc18; doc17; doc16; doc1] /\
  Permutation [doc18; doc17; doc16; doc1] [doc16; doc1; doc17; doc18].
Proof.
  assert (_sort_results "findmea9" [doc16; doc1; doc17; doc18] "HeaderB" =
          Return [doc18; doc17; doc16; doc1]) as H by (vm_compute; reflexivity).
  split; [exact H |].
  exact (X14_sort_is_permutation _ _ _ _ H).
Defined.

(** X15. The outcomes of [_sort_results]. It returns exactly when the
    query has a term and the sanitized [sort_by] names a string attribute
    of every result. It raises [IndexError] exactly when the query has no
    term, whatever the results; every other failure is an
    [AttributeError]. *)
Theorem X15_sort_outcomes (query : string) (results : list Document) (sort_by : string) :
  ((exists out, _sort_results query results sort_by = Return out) <->
   Py.split query <> [] /\
   forall d, In d results -> is_Some (attr_text (make_python_identifier sort_by) d)) /\
  (_sort_results query results sort_by = Raise (IndexError "list index out of range") <->
   Py.split query = []) /\
  (forall ex, _sort_results query results sort_by = Raise ex ->
              ex = IndexError "list index out of range" \/ exists msg, ex = AttributeError msg).
Proof.
  split; [| split].
  - split.
    + intros [out H]. eapply sort_results_returns_inv; eauto.
    + intros [Hq Hattr]. destruct (Py.split query) as [|term rest] eqn:E; [congruence |].
      rewrite (sort_results_ok _ _ _ _ _ E Hattr). eauto.
  - split.
    + intros H. apply sort_results_raise in H as [[Hq _] | (_ & msg & Hm)];
        [exact Hq | discriminate].
    + intros Hq. unfold _sort_results. now rewrite Hq.
  - intros ex H. apply sort_results_raise in H as [[_ ->] | (_ & msg & ->)]; eauto.
Qed.

Lemma X15_sort_outcomes_witness :
  Py.split "   " = [] /\
  _sort_results "   " [doc1] "HeaderB" = Raise (IndexError "list index out of range").
Proof.
  assert (Py.split "   " = []) as H by reflexivity.
  split; [exact H |].
  exact (proj2 (proj1 (proj2 (X15_sort_outcomes "   " [doc1] "HeaderB"))) H).
Defined.

(** X16. A query that is long enough to be accepted but has no term
    once normalized (punctuation only, for instance) makes
    [evaluate_query] raise [IndexError] whenever a non-empty [sort_by] is
    given, on every engine and without any read of the corpus. *)
Theorem X16_termless_query_with_sort (query sort_by : string) (t1 t2 : Z) (st : state) :
  3 <= String.length (Py.strip query) ->
  Py.split (_clean_string query) = [] ->
  sort_by <> EmptyString ->
  evaluate_query query (Some sort_by) t1 t2 st =
  (Raise (IndexError "list index out of range"), st).
Proof.
  intros Hlen Hq Hsb.
  rewrite (evaluate_query_run _ (Some sort_by) t1 t2 _ _ _ (validate_ok _ Hlen)
             (get_results_no_terms _ st Hq)).
  destruct sort_by as [|c s]; [congruence |]. cbn [sort_by_given].
  unfold _sort_results. now rewrite Hq.
Qed.

Lemma X16_termless_query_with_sort_witness :
  3 <= String.length (Py.strip "?!.,") /\
  Py.split (_clean_string "?!.,") = [] /\
  "Category Name" <> EmptyString /\
  evaluate_query "?!.," (Some "Category Name") 0 1 {| self := demo_engine; reads := [] |} =
  (Raise (IndexError "list index out of range"), {| self := demo_engine; reads := [] |}).
Proof.
  assert (3 <= String.length (Py.strip "?!.,")) as H1 by (vm_compute; lia).
  assert (Py.split (_clean_string "?!.,") = []) as H2 by reflexivity.
  assert ("Category Name" <> EmptyString) as H3 by discriminate.
  split; [exact H1 |]. split; [exact H2 |]. split; [exact H3 |].
  exact (X16_termless_query_with_sort "?!.," "Category Name" 0 1 _ H1 H2 H3).
Defined.

(** X17. When an accepted query has at least one term and no result,
    [evaluate_query] returns an empty result set for every [sort_by],
    also one that names no field: no attribute is looked up. *)
Theorem X17_no_result_no_field_lookup (e : self_t) (query sort_by term : string)
    (rest : list string) (t1 t2 : Z) :
  3 <= String.length (Py.strip query) ->
  Py.split (_clean_string query) = term :: rest ->
  fst (call (_get_results (_clean_string query)) e) = Return [] ->
  fst (call (evaluate_query query (Some sort_by) t1 t2) e) =
  Return (Results_init query [] (t2 - t1)).
Proof.
  intros Hlen Hq Hres. unfold call in *.
  destruct (_get_results (_clean_string query) {| self := e; reads := [] |})
    as [o st'] eqn:Hrun.
  simpl in Hres. subst o.
  now rewrite (sort_of_no_results query sort_by t1 t2 _ st' term rest Hlen Hq Hrun).
Qed.

Lemma X17_no_result_no_field_lookup_witness :
  3 <= String.length (Py.strip "NotATerm") /\
  Py.split (_clean_string "NotATerm") = "notaterm" :: [] /\
  fst (call (_get_results (_clean_string "NotATerm")) demo_engine) = Return [] /\
  fst (call (evaluate_query "NotATerm" (Some "No Such Field") 0 1) demo_engine) =
  Return (Results_init "NotATerm" [] (1 - 0)).
Proof.
  assert (3 <= String.length (Py.strip "NotATerm")) as H1 by (vm_compute; lia).
  assert (Py.split (_clean_string "NotATerm") = "notaterm" :: []) as H2 by reflexivity.
  assert (fst (call (_get_results (_clean_string "NotATerm")) demo_engine) = Return [])
    as H3 by (vm_compute; reflexivity).
  split; [exact H1 |]. split; [exact H2 |]. split; [exact H3 |].
  exact (X17_no_result_no_field_lookup demo_engine "NotATerm" "No Such Field"
           "notaterm" [] 0 1 H1 H2 H3).
Defined.

(** X18. Sorting by a column of the file always resolves. On an engine
    built from a file, a [sort_by] that is the text of a header cell, or
    the field name derived from it, never raises: for an accepted query
    with at least one term, [evaluate_query] returns. *)
Theorem X18_sort_by_header_returns (rows : list (list string)) (skiprows : option nat)
    (e : self_t) (header : list string) (query sort_by : string) (t1 t2 : Z) :
  FuzzySearchEngine rows skiprows = Return e ->
  rows !! skipped skiprows = Some header ->
  In sort_by header \/ In sort_by (map make_python_identifier header) ->
  3 <= String.length (Py.strip query) ->
  Py.split (_clean_string query) <> [] ->
  exists r, fst (call (evaluate_query query (Some sort_by) t1 t2) e) = Return r.
Proof.
  intros Hinit Hh Hsb Hlen Hq. apply init_built in Hinit as Hb.
  apply init_load, load_corpus_inv in Hinit as (header' & Hh' & Hc & Hnd & Hall).
  rewrite Hh in Hh'. injection Hh' as <-.
  destruct (built_evaluate e query (Some sort_by) t1 t2 Hb Hlen) as (ds & _ & Hds & Hev).
  rewrite Hev. destruct (sort_by_given (Some sort_by)) as [sb|] eqn:Esb; [| eauto].
  assert (sb = sort_by) as -> by (destruct sort_by; [discriminate | now injection Esb]).
  destruct (Py.split (_clean_string query)) as [|term rest] eqn:E; [congruence |].
  rewrite (sort_results_ok _ _ _ _ _ E); [eauto |].
  intros d Hd. apply (Forall2_corpus_In _ _ _ _ Hds) in Hd.
  rewrite Hc in Hd. apply in_map_iff in Hd as (row & <- & Hrow).
  rewrite Forall_forall in Hall. specialize (Hall row).
  assert (In (make_python_identifier sort_by) (map make_python_identifier header)) as Hin.
  { destruct Hsb as [Hsb | Hsb]; [now apply in_map |].
    apply in_map_iff in Hsb as (f & <- & Hf). rewrite derived_name_fixed.
    now apply in_map. }
  destruct (assoc_combine_In (make_python_identifier sort_by)
              (map make_python_identifier header) row Hin) as [v Hv].
  { rewrite length_map, Hall; [lia | now apply list_elem_of_In]. }
  rewrite (field_value_attr_text (mkDocument (map make_python_identifier header) row)
             _ v Hv).
  eauto.
Qed.

Lemma X18_sort_by_header_returns_witness :
  FuzzySearchEngine demo_rows (Some 1) = Return demo_engine /\
  demo_rows !! skipped (Some 1) = Some ["Document"; "HeaderB"] /\
  (In "HeaderB" ["Document"; "HeaderB"] \/
   In "HeaderB" (map make_python_identifier ["Document"; "HeaderB"])) /\
  3 <= String.length (Py.strip "FindMeA9") /\
  Py.split (_clean_string "FindMeA9") <> [] /\
  exists r, fst (call (evaluate_query "FindMeA9" (Some "HeaderB") 0 1) demo_engine) = Return r.
Proof.
  assert (FuzzySearchEngine demo_rows (Some 1) = Return demo_engine) as H1
    by (vm_compute; reflexivity).
  assert (demo_rows !! skipped (Some 1) = Some ["Document"; "HeaderB"]) as H2 by reflexivity.
  assert (In "HeaderB" ["Document"; "HeaderB"] \/
          In "HeaderB" (map make_python_identifier ["Document"; "HeaderB"])) as H3
    by (left; right; left; reflexivity).
  assert (3 <= String.length (Py.strip "FindMeA9")) as H4 by (vm_compute; lia).
  assert (Py.split (_clean_string "FindMeA9") <> []) as H5 by (vm_compute; discriminate).
  split; [exact H1 |]. split; [exact H2 |]. split; [exact H3 |]. split; [exact H4 |].
  split; [exact H5 |].
  exact (X18_sort_by_header_returns demo_rows (Some 1) demo_engine _ "FindMeA9" "HeaderB"
           0 1 H1 H2 H3 H4 H5).
Defined.

(** ** Records and their fields *)

(** X19. Reading a field of a record gives the cell in the column of
    that field: when the field names are distinct, [getattr] on the name
    at position [i] returns the value at position [i], also when the
    field is named like an attribute of tuples (such as [count]). *)
Theorem X19_field_lookup (fields items : list string) (i : nat) (f v : string) :
  NoDup fields ->
  fields !! i = Some f ->
  items !! i = Some v ->
  getattr (mkDocument fields items) f = Some (PyStr v).
Proof.
  intros Hnd Hf Hv. apply field_value_getattr. unfold field_value. simpl.
  eapply assoc_combine_lookup; eauto.
Qed.

Lemma X19_field_lookup_witness :
  NoDup ["document"; "count"] /\
  ["document"; "count"] !! 1 = Some "count" /\
  ["Document1"; "12"] !! 1 = Some "12" /\
  getattr (mkDocument ["document"; "count"] ["Document1"; "12"]) "count" = Some (PyStr "12").
Proof.
  assert (NoDup ["document"; "count"]) as H1 by (repeat constructor; set_solver).
  assert (["document"; "count"] !! 1 = Some "count") as H2 by reflexivity.
  assert (["Document1"; "12"] !! 1 = Some "12") as H3 by reflexivity.
  split; [exact H1 |]. split; [exact H2 |]. split; [exact H3 |].
  exact (X19_field_lookup _ _ 1 "count" "12" H1 H2 H3).
Defined.

(** ** util.py: [convert_to_schema] *)

Module schema.

(** What [convert_to_schema] leaves in a dictionary: the type of a value,
    known by its name, or, for a value that is a dictionary, the converted
    dictionary. *)
Inductive schema : Type :=
| SType (name : string)
| SDict (kv : list (string * schema)).

(** [type(value)] *)
Definition type_name (value : pyval) : string :=
  match value with
  | VStr _ => "str"
  | VFloat _ => "float"
  | VList _ => "list"
  | VDict _ => "dict"
  end.

(** The treatment of one value in the loop of [convert_to_schema]: a
    mapping is converted in place, any other value is replaced by its
    type. *)
Fixpoint convert_value (value : pyval) : schema :=
  match value with
  | VDict kv => SDict (map (fun '(k, x) => (k, convert_value x)) kv)
  | _ => SType (type_name value)
  end.

(** [convert_to_schema(json_like)]: the dictionary after the call. *)
Definition convert_to_schema (json_like : list (string * pyval)) : list (string * schema) :=
  map (fun '(k, x) => (k, convert_value x)) json_like.

(** The dictionary held by a value, when it is one. *)
Definition as_dict (v : pyval) : list (string * pyval) :=
  match v with
  | VDict kv => kv
  | _ => []
  end.

End schema.

Import schema.

(** X20. [convert_to_schema] keeps the keys of a dictionary and their
    order, and the schema of the object [to_json] builds is the same for
    every result, whatever its query, time and records:
    meta: (query: str, execution_time_ms: float), data: list. *)
Theorem X20_result_schema :
  (forall json_like, map fst (convert_to_schema json_like) = map fst json_like) /\
  (forall r : Results,
     to_json r = VDict (as_dict (to_json r)) /\
     convert_to_schema (as_dict (to_json r)) =
     [("meta", SDict [("query", SType "str"); ("execution_time_ms", SType "float")]);
      ("data", SType "list")]).
Proof.
  split.
  - intros d. unfold convert_to_schema. rewrite map_map.
    apply map_ext. now intros [k x].
  - intros r. split; reflexivity.
Qed.

(** ** app.py: the request handler *)

Module app.

(** The error object the handler writes. *)
Definition error_response (title detail : string) : pyval :=
  VDict [("errors", VList [VDict [("title", VStr title); ("detail", VStr detail)]])].

(** [QueryHandler.get]. [q] is the value of [get_argument] for the
    parameter q, [None] when it is absent; the engine is the state. The
    result is the object handed to [json.dumps] and written, if any;
    an exception that is not caught leaves the handler. *)
Definition QueryHandler_get (q : option string) (t1 t2 : Z) : M (option pyval) :=
  match q with
  | None => ret None
  | Some EmptyString => ret None
  | Some query =>
      fun st =>
        match evaluate_query query (Some "Category Name") t1 t2 st with
        | (Return result, st') => (Return (Some (to_json result)), st')
        | (Raise (InvalidQueryError msg), st') =>
            (Return (Some (error_response "InvalidQueryError" msg)), st')
        | (Raise e, st') => (Raise e, st')
        end
  end.

End app.

Import app.

Section Handler.

Lemma handler_unfold query t1 t2 st :
  query <> EmptyString ->
  QueryHandler_get (Some query) t1 t2 st =
  match evaluate_query query (Some "Category Name") t1 t2 st with
  | (Return result, st') => (Return (Some (to_json result)), st')
  | (Raise (InvalidQueryError msg), st') =>
      (Return (Some (error_response "InvalidQueryError" msg)), st')
  | (Raise e, st') => (Raise e, st')
  end.
Proof. destruct query; [congruence | reflexivity]. Qed.

Lemma evaluate_query_rejected query sort_by t1 t2 st :
  String.length (Py.strip query) < 3 ->
  evaluate_query query sort_by t1 t2 st =
  (Raise (InvalidQueryError "Query must be at least 3 characters"), st).
Proof.
  intros H. unfold evaluate_query, bind at 1, lift at 1, _validate_query.
  destruct (Z.ltb_spec (Z.of_nat (String.length (Py.strip query))) 3); [reflexivity | lia].
Qed.

Lemma handler_short_query query t1 t2 st :
  query <> EmptyString ->
  String.length (Py.strip query) < 3 ->
  QueryHandler_get (Some query) t1 t2 st =
  (Return (Some (error_response "InvalidQueryError" "Query must be at least 3 characters")),
   st).
Proof.
  intros Hne Hlen. rewrite (handler_unfold query t1 t2 st Hne).
  now rewrite (evaluate_query_rejected query _ t1 t2 st Hlen).
Qed.

End Handler.

(** X21. For a query that is not empty and whose trimmed length is
    below three, the handler answers with the error object whose title is
    the name of the exception and whose detail is its message, and it
    reads nothing from the engine. *)
Theorem X21_handler_short_query (query : string) (t1 t2 : Z) (st : state) :
  query <> EmptyString ->
  String.length (Py.strip query) < 3 ->
  QueryHandler_get (Some query) t1 t2 st =
  (Return (Some (error_response "InvalidQueryError" "Query must be at least 3 characters")),
   st).
Proof.
  apply handler_short_query.
Qed.

Lemma X21_handler_short_query_witness :
  "te" <> EmptyString /\
  String.length (Py.strip "te") < 3 /\
  QueryHandler_get (Some "te") 0 1 {| self := demo_engine; reads := [] |} =
  (Return (Some (error_response "InvalidQueryError" "Query must be at least 3 characters")),
   {| self := demo_engine; reads := [] |}).
Proof.
  assert ("te" <> EmptyString) as H1 by discriminate.
  assert (String.length (Py.strip "te") < 3) as H2 by (vm_compute; lia).
  split; [exact H1 |]. split; [exact H2 |].
  exact (X21_handler_short_query "te" 0 1 _ H1 H2).
Defined.

(** X22. What the handler does with a query that is not empty, on an
    engine built from a file. It writes the error object exactly for the
    queries that are too short, and the object of [to_json], with the
    query as it was passed, for the others when the evaluation returns.
    [InvalidQueryError] never leaves the handler; the exceptions that do
    are [IndexError], for an accepted query without a term, and
    [AttributeError]. *)
Theorem X22_handler_outcomes (rows : list (list string)) (skiprows : option nat)
    (e : self_t) (query : string) (t1 t2 : Z) :
  FuzzySearchEngine rows skiprows = Return e ->
  query <> EmptyString ->
  match fst (call (QueryHandler_get (Some query) t1 t2) e) with
  | Return (Some obj) =>
      (String.length (Py.strip query) < 3 /\
       obj = error_response "InvalidQueryError" "Query must be at least 3 characters") \/
      (3 <= String.length (Py.strip query) /\
       exists r, obj = to_json r /\ util.query r = query)
  | Return None => False
  | Raise ex =>
      3 <= String.length (Py.strip query) /\
      ((Py.split (_clean_string query) = [] /\ ex = IndexError "list index out of range") \/
       exists msg, ex = AttributeError msg)
  end.
Proof.
  intros Hinit Hne. apply init_built in Hinit as Hb. unfold call.
  destruct (Nat.lt_ge_cases (String.length (Py.strip query)) 3) as [Hlen | Hlen].
  - rewrite (handler_short_query query t1 t2 _ Hne Hlen). simpl. left. auto.
  - rewrite (handler_unfold query t1 t2 _ Hne).
    destruct (built_evaluate e query (Some "Category Name") t1 t2 Hb Hlen)
      as (ds & _ & _ & Hev).
    unfold call in Hev.
    destruct (evaluate_query query (Some "Category Name") t1 t2 {| self := e; reads := [] |})
      as [o st'].
    cbn [fst sort_by_given] in Hev. subst o.
    destruct (_sort_results (_clean_string query) ds "Category Name") as [out|ex] eqn:Es.
    + simpl. right. split; [exact Hlen |]. eexists. split; reflexivity.
    + apply sort_results_raise in Es as [[Hq ->] | (_ & msg & ->)]; simpl.
      * split; [exact Hlen |]. left. auto.
      * split; [exact Hlen |]. right. eauto.
Qed.

Lemma X22_handler_outcomes_witness :
  FuzzySearchEngine demo_rows (Some 1) = Return demo_engine /\
  "FindMeA1" <> EmptyString /\
  match fst (call (QueryHandler_get (Some "FindMeA1") 0 1) demo_engine) with
  | Return (Some obj) =>
      (String.length (Py.strip "FindMeA1") < 3 /\
       obj = error_response "InvalidQueryError" "Query must be at least 3 characters") \/
      (3 <= String.length (Py.strip "FindMeA1") /\
       exists r, obj = to_json r /\ util.query r = "FindMeA1")
  | Return None => False
  | Raise ex =>
      3 <= String.length (Py.strip "FindMeA1") /\
      ((Py.split (_clean_string "FindMeA1") = [] /\
        ex = IndexError "list index out of range") \/
       exists msg, ex = AttributeError msg)
  end.
Proof.
  assert (FuzzySearchEngine demo_rows (Some 1) = Return demo_engine) as H1
    by (vm_compute; reflexivity).
  assert ("FindMeA1" <> EmptyString) as H2 by discriminate.
  split; [exact H1 |]. split; [exact H2 |].
  exact (X22_handler_outcomes demo_rows (Some 1) demo_engine "FindMeA1" 0 1 H1 H2).
Defined.

Example handler_scenario :
  fst (call (QueryHandler_get (Some "FindMeA1") 0 1) demo_engine) =
  Raise (AttributeError
           "Could not sort by 'category_name'. Please use one of ('document', 'headerb')").
Proof. vm_compute. reflexivity. Qed.
